(** * SBMLLint, games/message.py: the MESSAGE matrix stage

    A shallow embedding of [SBMLLint/games/message.py]: the stoichiometry
    matrix builder, the LU-based reducer, the reaction classifier and the
    matrix-to-reaction converter, with the properties stated about them.

    Modelling conventions.
    - Python floats (stoichiometry coefficients, matrix cells) are the
      rationals [Q] with exact arithmetic; float [==], [<=], [<] are
      [Qeq_bool], [Qle_bool] and their negations.  NaN and infinities are
      not modelled.
    - Python exceptions are the [Raise] branch of [result].
    - Python dicts are [gmap string Q], Python sets are [gset string].
    - A pandas DataFrame is its row labels, its column labels and its
      values, row by row. *)

From Stdlib Require Import QArith Qabs.
From stdpp Require Import gmap strings list fin_maps.

Set Warnings "-clear-no-such-hyp".

Local Open Scope string_scope.
Local Open Scope nat_scope.
Local Open Scope list_scope.
Local Open Scope stdpp_scope.

(** ** Exceptions *)

Inductive PyError :=
| NameError (name : string)
| IndexError
| KeyError (key : string)
| ValueError
| TypeError
| LinAlgError
| UnknownIdentifierError (name : string).

Inductive result (A : Type) :=
| Ok (a : A)
| Raise (e : PyError).
Arguments Ok {A} a.
Arguments Raise {A} e.

#[global] Instance result_ret : MRet result := λ A a, Ok a.
#[global] Instance result_bind : MBind result := λ A B f m,
  match m with Ok a => f a | Raise e => Raise e end.

#[global] Instance result_fmap : FMap result := λ A B f m,
  match m with Ok a => Ok (f a) | Raise e => Raise e end.

(** [l[i]] on a Python list. *)
Definition getitem {A} (l : list A) (i : nat) : result A :=
  match l !! i with Some a => Ok a | None => Raise IndexError end.

(** ** Data model *)

(** The category strings.  [REACTION_REDUNDANT] and [REACTION_ERROR] are
    defined in message.py; the others are the constants [cn.REACTION_1_1],
    [cn.REACTION_1_n], [cn.REACTION_n_1], [cn.REACTION_n_n] and
    [cn.REACTION_BOUNDARY] of the constants module, taken here as pairwise
    distinct names. *)
Inductive Category :=
| REACTION_REDUNDANT
| REACTION_ERROR
| REACTION_1_1
| REACTION_1_n
| REACTION_n_1
| REACTION_n_n
| REACTION_BOUNDARY.

#[global] Instance Category_eq_dec : EqDecision Category.
Proof. solve_decision. Defined.

(** Modelled from the spec: the name of the distinguished empty-set
    placeholder molecule ([cn.EMPTYSET]; the constants module is not part
    of the sources at hand).  The properties below use nothing of it but
    that it is not the name of a molecule of the examples. *)
Definition EMPTYSET : string := "EmptySet".

Record Molecule := { name : string }.

Record MoleculeStoichiometry := {
  molecule : Molecule;
  stoichiometry : Q
}.

Record Reaction := {
  label : string;
  reactants : list MoleculeStoichiometry;
  products : list MoleculeStoichiometry;
  category : Category
}.

(** [ReactionSummary = namedtuple('ReactionSummary',
                                  'label reactants products category')] *)
Record ReactionSummary := {
  rs_label : string;
  rs_reactants : list MoleculeStoichiometry;
  rs_products : list MoleculeStoichiometry;
  rs_category : Category
}.

(** [cn.ReactionCategory(category=..., predicate=...)]; a predicate may
    raise (it indexes [r[0]] and [p[0]]). *)
Record ReactionCategory := {
  rc_category : Category;
  rc_predicate : nat → nat → list Q → list Q → result bool
}.

(** ** Reaction classifier *)

(** Python [sum] over a list of floats, starting from [0]. *)
Definition pysum (l : list Q) : Q := foldl Qplus 0%Q l.

(** Python [sum] over a list of booleans: the number of [True]. *)
Definition pysum_bool (l : list bool) : nat :=
  foldl (λ n (b : bool), if b then S n else n) 0 l.

Definition pred_redundant (x y : nat) (r p : list Q) : result bool :=
  Ok (bool_decide (x = 0) && bool_decide (y = 0)).

Definition pred_error (x y : nat) (r p : list Q) : result bool :=
  Ok ((bool_decide (x = 0) && negb (bool_decide (y = 0)))
      || (negb (bool_decide (x = 0)) && bool_decide (y = 0))).

Definition pred_1_1 (x y : nat) (r p : list Q) : result bool :=
  Ok (bool_decide (x = 1) && bool_decide (y = 1)
      && Qeq_bool (pysum r) (pysum p)).

(** [(x==1) and (sum([r[0]<=e for e in p])==len(p))]: [and] short-circuits,
    and [r[0]] is evaluated once per element of [p]. *)
Definition pred_1_n (x y : nat) (r p : list Q) : result bool :=
  if bool_decide (x = 1) then
    flags ← mapM (λ e, r0 ← getitem r 0; mret (Qle_bool r0 e)) p;
    mret (bool_decide (pysum_bool flags = length p))
  else Ok false.

(** [(y==1) and (sum([p[0]<=e for e in r])==len(r))] *)
Definition pred_n_1 (x y : nat) (r p : list Q) : result bool :=
  if bool_decide (y = 1) then
    flags ← mapM (λ e, p0 ← getitem p 0; mret (Qle_bool p0 e)) r;
    mret (bool_decide (pysum_bool flags = length r))
  else Ok false.

Definition REACTION_SUMMARY_CATEGORIES : list ReactionCategory :=
  [ {| rc_category := REACTION_REDUNDANT; rc_predicate := pred_redundant |};
    {| rc_category := REACTION_ERROR;     rc_predicate := pred_error |};
    {| rc_category := REACTION_1_1;       rc_predicate := pred_1_1 |};
    {| rc_category := REACTION_1_n;       rc_predicate := pred_1_n |};
    {| rc_category := REACTION_n_1;       rc_predicate := pred_n_1 |} ].

(** The [for reaction_category in ...: if predicate(...): return category]
    loop, with the fall-through [return cn.REACTION_n_n]. *)
Fixpoint first_match (cats : list ReactionCategory)
    (x y : nat) (r p : list Q) : result Category :=
  match cats with
  | [] => Ok REACTION_n_n
  | c :: cats' =>
      b ← rc_predicate c x y r p;
      if b : bool then Ok (rc_category c) else first_match cats' x y r p
  end.

(** [[m for m in l if m.molecule.name != cn.EMPTYSET]] *)
Definition real_entries (l : list MoleculeStoichiometry)
    : list MoleculeStoichiometry :=
  filter (λ m, name (molecule m) ≠ EMPTYSET) l.

Definition getReactionSummaryCategory
    (reactants products : list MoleculeStoichiometry) : result Category :=
  let num_reactants := length (molecule <$> real_entries reactants) in
  let num_products := length (molecule <$> real_entries products) in
  let stoichiometry_reactants := stoichiometry <$> real_entries reactants in
  let stoichiometry_products := stoichiometry <$> real_entries products in
  first_match REACTION_SUMMARY_CATEGORIES num_reactants num_products
    stoichiometry_reactants stoichiometry_products.

(** [MoleculeStoichiometry(Molecule(n), c)] *)
Definition mk (n : string) (c : Q) : MoleculeStoichiometry :=
  {| molecule := {| name := n |}; stoichiometry := c |}.

(** ** pandas DataFrame *)

Record DataFrame := {
  index : list string;
  columns : list string;
  values : list (list Q)
}.

(** The positions at which a label occurs in an axis, counted from [i]. *)
Fixpoint positions_from (i : nat) (l : list string) (x : string) : list nat :=
  match l with
  | [] => []
  | y :: l' =>
      if decide (y = x) then i :: positions_from (S i) l' x
      else positions_from (S i) l' x
  end.

Definition positions (l : list string) (x : string) : list nat :=
  positions_from 0 l x.
Arguments positions : simpl never.

(** A frame whose values have the shape its axes announce. *)
Definition well_shaped (df : DataFrame) : Prop :=
  length (values df) = length (index df)
  ∧ Forall (λ row, length row = length (columns df)) (values df).

(** [pd.DataFrame(v, index=index, columns=columns)] with a scalar [v]. *)
Definition DataFrame_full (v : Q) (index columns : list string) : DataFrame :=
  {| index := index; columns := columns;
     values := (λ _, replicate (length columns) v) <$> index |}.

(** The frame after [df[c][m] = v].  When the column label [c] is unique,
    [df[c]] is the column itself and the assignment writes every row
    labelled [m] (none when [m] is not a row label: the Series alone would
    grow).  When [c] labels several columns, [df[c]] is a copy holding those
    columns and the assignment is lost. *)
Definition assigned (df : DataFrame) (c m : string) (v : Q) : DataFrame :=
  match positions (columns df) c with
  | [j] =>
      {| index := index df; columns := columns df;
         values := zip_with (λ l row, if decide (l = m) then <[j:=v]> row else row)
                     (index df) (values df) |}
  | _ => df
  end.

(** [df[c][m] = v]: [df[c]] raises when [c] is not a column label. *)
Definition setitem_chained (df : DataFrame) (c m : string) (v : Q)
    : result DataFrame :=
  match positions (columns df) c with
  | [] => Raise (KeyError c)
  | _ => Ok (assigned df c m v)
  end.

(** A [for] loop that updates a state and stops at the first exception. *)
Fixpoint for_each {S A} (body : S → A → result S) (s : S) (l : list A)
    : result S :=
  match l with
  | [] => Ok s
  | a :: l' => s' ← body s a; for_each body s' l'
  end.

(** The cell at row label [m] and column label [c], at the first position
    of each label. *)
Definition cell (df : DataFrame) (m c : string) : option Q :=
  i ← head (positions (index df) m);
  j ← head (positions (columns df) c);
  row ← values df !! i;
  row !! j.

(** [df.T] *)
Definition transpose (df : DataFrame) : DataFrame :=
  {| index := columns df; columns := index df;
     values := (λ j, (λ row, nth j row 0%Q) <$> values df)
                 <$> seq 0 (length (columns df)) |}.

(** ** Stoichiometry matrix builder *)

(** [{r.molecule.name: r.stoichiometry for r in l}]: a later entry for the
    same name replaces an earlier one. *)
Definition stoichiometry_dict (l : list MoleculeStoichiometry) : gmap string Q :=
  foldl (λ d r, <[name (molecule r) := stoichiometry r]> d) ∅ l.

(** [d.get(k, 0.0)] *)
Definition dict_get (d : gmap string Q) (k : string) : Q := default 0%Q (d !! k).

(** [products.get(m, 0.0) - reactants.get(m, 0.0)] for one reaction. *)
Definition net_stoichiometry (reaction : Reaction) (molecule_name : string) : Q :=
  (dict_get (stoichiometry_dict (products reaction)) molecule_name
   - dict_get (stoichiometry_dict (reactants reaction)) molecule_name)%Q.

(** [list(set(reactants.keys()).union(products.keys()))] *)
Definition reaction_molecules (reaction : Reaction) : list string :=
  elements (dom (stoichiometry_dict (reactants reaction))
            ∪ dom (stoichiometry_dict (products reaction)) : gset string).

Definition getStoichiometryMatrix
    (reactions : list Reaction) (molecules : list string) : result DataFrame :=
  let reaction_labels := label <$> reactions in
  let stoichiometry_matrix := DataFrame_full 0%Q molecules reaction_labels in
  for_each (λ stoichiometry_matrix reaction,
              for_each (λ stoichiometry_matrix molecule_name,
                          setitem_chained stoichiometry_matrix (label reaction)
                            molecule_name
                            (net_stoichiometry reaction molecule_name))
                stoichiometry_matrix (reaction_molecules reaction))
    stoichiometry_matrix reactions.

(** ** Message construction *)

(** Modelled from the spec: the upstream model object.  It carries the list
    of reactions and the name-to-object lookup capability; a failed lookup
    raises. *)
Record SimpleSBML := {
  sbml_reactions : list Reaction;
  getReaction : string → result Reaction;
  getMolecule : string → result Molecule
}.

Definition _getNonBoundaryReactions (simple : SimpleSBML) : list Reaction :=
  filter (λ reaction, category reaction ≠ REACTION_BOUNDARY) (sbml_reactions simple).

Definition _getNonBoundaryMolecules (simple : SimpleSBML)
    (reactions : list Reaction) : list string :=
  elements (foldl (λ (molecules : gset string) reaction,
                     molecules
                     ∪ list_to_set ((λ r, name (molecule r)) <$> reactants reaction)
                     ∪ list_to_set ((λ r, name (molecule r)) <$> products reaction))
              ∅ reactions).

Record Message := {
  simple : SimpleSBML;
  reactions : list Reaction;
  molecules : list string;
  stoichiometry_matrix : DataFrame;
  reduced_reactions : list ReactionSummary
}.

(** [Message.__init__] *)
Definition Message_init (simple : SimpleSBML) : result Message :=
  let reactions := _getNonBoundaryReactions simple in
  let molecules := _getNonBoundaryMolecules simple reactions in
  stoichiometry_matrix ← getStoichiometryMatrix reactions molecules;
  mret {| simple := simple;
          reactions := reactions;
          molecules := molecules;
          stoichiometry_matrix := stoichiometry_matrix;
          reduced_reactions := [] |}.

(** ** Matrix reducer *)

(** A two-dimensional numpy array: its rows, and its number of columns
    (which the rows alone do not give when there are none). *)
Record ndarray := {
  ncols : nat;
  rows : list (list Q)
}.

(** The array of values a DataFrame hands to a numeric routine. *)
Definition to_numpy (df : DataFrame) : ndarray :=
  {| ncols := length (columns df); rows := values df |}.

(** [pd.DataFrame(a, index=index, columns=columns)] with an array [a]:
    the shape of [a] has to agree with the two axes. *)
Definition DataFrame_of_ndarray (a : ndarray) (index columns : list string)
    : result DataFrame :=
  if decide (length (rows a) = length index ∧ ncols a = length columns)
  then Ok {| index := index; columns := columns; values := rows a |}
  else Raise ValueError.

(** [list(k).index(v)] *)
Fixpoint list_index (k : list Q) (v : Q) : result nat :=
  match k with
  | [] => Raise ValueError
  | e :: k' => if Qeq_bool e v then Ok 0 else S <$> list_index k' v
  end.

Section Reducer.
(** [scipy.linalg.lu] and [scipy.linalg.inv] are library routines. *)
Variable lu : ndarray → result (ndarray * ndarray * ndarray).
Variable inv : ndarray → result ndarray.

(** The generator computes everything before its first [yield]; the pair
    is what it yields, in order: the 'L' factor, then [row_reduced]. *)
Definition decomposeMatrix (mat_df : DataFrame) : result (ndarray * DataFrame) :=
  let mat_t := transpose mat_df in
  let idx_mat_t := index mat_t in
  mat_lu ← lu (to_numpy mat_t);
  p_inv ← inv (mat_lu.1.1);
  pivot_index ← mapM (λ k, list_index k 1%Q) (rows p_inv);
  new_idx_mat_t ← mapM (λ idx, getitem idx_mat_t idx) pivot_index;
  row_reduced ← DataFrame_of_ndarray (mat_lu.2) new_idx_mat_t (columns mat_t);
  mret (mat_lu.1.2, transpose row_reduced).
End Reducer.

(** *** The library routines, in exact arithmetic *)

Definition Qlt_bool (a b : Q) : bool := negb (Qle_bool b a).

Definition entry (a : list (list Q)) (i j : nat) : Q := nth j (nth i a []) 0%Q.

Definition swap {A} (i j : nat) (l : list A) : list A :=
  match l !! i, l !! j with
  | Some a, Some b => <[i:=b]> (<[j:=a]> l)
  | _, _ => l
  end.

(** Partial pivoting: the first row at or below [k] whose entry in column
    [k] has the largest absolute value. *)
Definition pivot_row (k : nat) (a : list (list Q)) : nat :=
  foldl (λ best i,
           if Qlt_bool (Qabs (entry a best k)) (Qabs (entry a i k)) then i else best)
    k (seq (S k) (length a - S k)).

(** One elimination step of the LU factorisation, in place: multipliers are
    stored below the diagonal; [perm] records where each row came from. *)
Definition lu_step (st : list (list Q) * list nat) (k : nat)
    : list (list Q) * list nat :=
  let a := swap k (pivot_row k st.1) st.1 in
  let perm := swap k (pivot_row k st.1) st.2 in
  let piv := entry a k k in
  if Qeq_bool piv 0 then (a, perm)
  else (imap (λ i row,
                if decide (i ≤ k)%nat then row
                else let f := Qred (nth k row 0%Q / piv) in
                     imap (λ j x, if decide (j < k)%nat then x
                                  else if decide (j = k) then f
                                  else Qred (x - f * entry a k j)) row) a,
        perm).

(** Modelled from the spec: [scipy.linalg.lu], the standard Gaussian
    elimination with partial pivoting.  For an M x N array it returns the
    permutation factor P (M x M), the unit lower factor L (M x K) and the
    upper factor U (K x N), K = min(M, N), with A = P L U.  On an array
    without rows or without columns the versions of the library differ:
    older ones raise, recent ones return factors without rows.  This model
    returns; what is stated below about such arrays is stated for every
    routine, and this model is evaluated there only on an array without
    rows, where it returns factors without rows. *)
Definition scipy_lu (a : ndarray) : result (ndarray * ndarray * ndarray) :=
  let M := length (rows a) in
  let N := ncols a in
  let K := min M N in
  let st := foldl lu_step (rows a, seq 0 M) (seq 0 K) in
  Ok ({| ncols := M;
         rows := (λ r, (λ c, if decide (st.2 !! c = Some r) then 1%Q else 0%Q)
                         <$> seq 0 M) <$> seq 0 M |},
      {| ncols := K;
         rows := (λ i, (λ j, if decide (j < i)%nat then entry st.1 i j
                             else if decide (j = i) then 1%Q else 0%Q)
                         <$> seq 0 K) <$> seq 0 M |},
      {| ncols := N;
         rows := (λ i, (λ j, if decide (j < i)%nat then 0%Q else entry st.1 i j)
                         <$> seq 0 N) <$> seq 0 K |}).

(** One Gauss-Jordan step on the augmented array [A | I]. *)
Definition inv_step (st : result (list (list Q))) (k : nat)
    : result (list (list Q)) :=
  a0 ← st;
  let a := swap k (pivot_row k a0) a0 in
  let piv := entry a k k in
  if Qeq_bool piv 0 then Raise LinAlgError
  else
    let rk := (λ x, Qred (x / piv)) <$> nth k a [] in
    Ok (imap (λ i row,
                if decide (i = k) then rk
                else zip_with (λ x y, Qred (x - nth k row 0%Q * y)) row rk) a).

(** Modelled from the spec: [scipy.linalg.inv], the inverse of a square
    array; a singular array raises. *)
Definition scipy_inv (a : ndarray) : result ndarray :=
  let n := length (rows a) in
  if decide (ncols a = n) then
    res ← foldl inv_step
          (Ok (imap (λ i row, (row ++ ((λ j, if decide (i = j) then 1%Q else 0%Q)
                                         <$> seq 0 n))%list) (rows a)))
          (seq 0 n);
    mret {| ncols := n; rows := (λ i, drop n (nth i res [])) <$> seq 0 n |}
  else Raise ValueError.

(** The product of two arrays given by their rows, [b] having [n] columns. *)
Definition matmul (n : nat) (a b : list (list Q)) : list (list Q) :=
  (λ row, (λ j, Qred (foldl Qplus 0%Q
                        (zip_with (λ x brow, (x * nth j brow 0)%Q) row b)))
            <$> seq 0 n) <$> a.

(** ** Matrix-to-reaction converter *)

(** What an unqualified name of message.py can be bound to. *)
Inductive PyObject :=
| PyModule
| PyClass
| PyStr (s : string)
| PyList
| PyFunction (f : list MoleculeStoichiometry → list MoleculeStoichiometry
                  → result Category).

(** The names bound at module level in message.py: its imports, its
    assignments and its one class.  The methods of [Message] are attributes
    of the class, not module-level names. *)
Definition module_globals : list (string * PyObject) :=
  [ ("cn", PyModule); ("Molecule", PyClass); ("MoleculeStoichiometry", PyClass);
    ("Reaction", PyClass); ("SOM", PyClass); ("SimpleSBML", PyClass);
    ("collections", PyModule); ("itertools", PyModule); ("nx", PyModule);
    ("np", PyModule); ("pd", PyModule); ("scipy", PyModule);
    ("ReactionSummary", PyClass);
    ("REACTION_REDUNDANT", PyStr "reaction_redundant");
    ("REACTION_ERROR", PyStr "reaction_error");
    ("REACTION_SUMMARY_CATEGORIES", PyList);
    ("Message", PyClass) ].

(** Resolution of a name that is not local to the function. *)
Fixpoint lookup_global (globals : list (string * PyObject)) (n : string)
    : result PyObject :=
  match globals with
  | [] => Raise (NameError n)
  | (k, o) :: globals' => if decide (k = n) then Ok o else lookup_global globals' n
  end.

Arguments lookup_global : simpl never.

(** Calling an object on a reactant list and a product list. *)
Definition call (o : PyObject) (r p : list MoleculeStoichiometry)
    : result Category :=
  match o with
  | PyFunction f => f r p
  | _ => Raise TypeError
  end.

(** [mat_df[c]]: a Series when the label is unique, a DataFrame holding
    the columns of that label otherwise. *)
Inductive Selection :=
| Sel_Series (idx : list string) (vals : list Q)
| Sel_Frame (idx : list string) (c : string).

Definition getitem_column (df : DataFrame) (c : string) : result Selection :=
  match positions (columns df) c with
  | [] => Raise (KeyError c)
  | [j] => Ok (Sel_Series (index df) ((λ row, nth j row 0%Q) <$> values df))
  | _ => Ok (Sel_Frame (index df) c)
  end.

Definition sel_index (s : Selection) : list string :=
  match s with Sel_Series idx _ => idx | Sel_Frame idx _ => idx end.

(** [s[m]] used as a number: a unique row label gives the scalar; a
    repeated one gives a Series, whose comparison has no truth value. *)
Definition sel_getitem (s : Selection) (m : string) : result Q :=
  match s with
  | Sel_Series idx vals =>
      match positions idx m with
      | [] => Raise (KeyError m)
      | [i] => Ok (nth i vals 0%Q)
      | _ => Raise ValueError
      end
  | Sel_Frame idx c => if decide (m = c) then Raise ValueError else Raise (KeyError m)
  end.

(** [[MoleculeStoichiometry(simple.getMolecule(m), coef(s[m]))
      for m in ms if keep(s[m])]] *)
Fixpoint select_molecules (simple : SimpleSBML) (s : Selection)
    (keep : Q → bool) (coef : Q → Q) (ms : list string)
    : result (list MoleculeStoichiometry) :=
  match ms with
  | [] => Ok []
  | m :: ms' =>
      v ← sel_getitem s m;
      if keep v then
        mol ← getMolecule simple m;
        v' ← sel_getitem s m;
        rest ← select_molecules simple s keep coef ms';
        mret ({| molecule := mol; stoichiometry := coef v' |} :: rest)
      else select_molecules simple s keep coef ms'
  end.

(** The body of [convertMatrixToReactions], with the module-level names in
    scope as a parameter. *)
Definition convert_in (globals : list (string * PyObject))
    (simple : SimpleSBML) (mat_df : DataFrame) : result (list ReactionSummary) :=
  mapM (λ reaction_name,
          reaction ← getReaction simple reaction_name;
          reduced_reaction_series ← getitem_column mat_df reaction_name;
          reactants ← select_molecules simple reduced_reaction_series
                        (λ v, Qlt_bool v 0) Qabs
                        (sel_index reduced_reaction_series);
          products ← select_molecules simple reduced_reaction_series
                       (λ v, Qlt_bool 0 v) id
                       (sel_index reduced_reaction_series);
          f ← lookup_global globals "getReactionSummaryCategory";
          category ← call f reactants products;
          mret {| rs_label := reaction_name;
                  rs_reactants := reactants;
                  rs_products := products;
                  rs_category := category |})
       (columns mat_df).

(** The call in the source is [getReactionSummaryCategory(reactants,
    products)], an unqualified name resolved among the module's names. *)
Definition convertMatrixToReactions (simple : SimpleSBML) (mat_df : DataFrame)
    : result (list ReactionSummary) :=
  convert_in module_globals simple mat_df.

(** The same body with the classifier reachable under the name it is
    called by, as the summary's [category] is described. *)
Definition convertMatrixToReactions_resolved (simple : SimpleSBML)
    (mat_df : DataFrame) : result (list ReactionSummary) :=
  convert_in (("getReactionSummaryCategory", PyFunction getReactionSummaryCategory)
                :: module_globals) simple mat_df.

(** The classification in the words of the design (first match in the
    order redundant, error, one-to-one, one-to-many, many-to-one, default
    many-to-many), as a function of the real coefficient lists; compared
    with [getReactionSummaryCategory] below. *)
Definition classify (r p : list Q) : Category :=
  match r, p with
  | [], [] => REACTION_REDUNDANT
  | [], _ :: _ | _ :: _, [] => REACTION_ERROR
  | r0 :: _, p0 :: _ =>
      if bool_decide (length r = 1) && bool_decide (length p = 1)
         && Qeq_bool (pysum r) (pysum p) then REACTION_1_1
      else if bool_decide (length r = 1) && forallb (Qle_bool r0) p then REACTION_1_n
      else if bool_decide (length p = 1) && forallb (Qle_bool p0) r then REACTION_n_1
      else REACTION_n_n
  end.

(** ** Notions used in the statements

    The assignments of the builder, flattened: one triple (column label,
    row label, value) per executed [stoichiometry_matrix[label][name] = net]. *)
Definition apply_write (df : DataFrame) (w : string * string * Q) : DataFrame :=
  assigned df w.1.1 w.1.2 w.2.

Definition reaction_writes (reaction : Reaction) : list (string * string * Q) :=
  (λ molecule_name,
     (label reaction, molecule_name, net_stoichiometry reaction molecule_name))
    <$> reaction_molecules reaction.

(** The molecule names of a reactant or product list. *)
Definition names (l : list MoleculeStoichiometry) : list string :=
  (λ r, name (molecule r)) <$> l.

(** ** Example inputs *)

Definition R1_A_to_B : Reaction :=
  {| label := "R1"; reactants := [mk "A" 1]; products := [mk "B" 1];
     category := REACTION_1_1 |}.

Definition R2_2A_to_C : Reaction :=
  {| label := "R2"; reactants := [mk "A" 2]; products := [mk "C" 1];
     category := REACTION_n_1 |}.

(** A second reaction carrying the label of [R1_A_to_B]. *)
Definition R1_B_to_C : Reaction :=
  {| label := "R1"; reactants := [mk "B" 1]; products := [mk "C" 1];
     category := REACTION_1_1 |}.

(** A boundary reaction: [X] enters from outside the model. *)
Definition RB_to_X : Reaction :=
  {| label := "RB"; reactants := []; products := [mk "X" 1];
     category := REACTION_BOUNDARY |}.

(** A model whose lookups find every name. *)
Definition example_model (rs : list Reaction) : SimpleSBML :=
  {| sbml_reactions := rs;
     getReaction := λ n, match filter (λ r, label r = n) rs with
                         | r :: _ => Ok r
                         | [] => Raise (UnknownIdentifierError n)
                         end;
     getMolecule := λ n, Ok {| name := n |} |}.

(** The matrix of [R1_A_to_B] and [R2_2A_to_C] over A, B, C. *)
Definition example_matrix : DataFrame :=
  {| index := ["A"; "B"; "C"]; columns := ["R1"; "R2"];
     values := [[-1; -2]; [1; 0]; [0; 1]]%Q |}.

(** The factor and the reduced matrix computed for [example_matrix]. *)
Definition example_L : ndarray :=
  {| ncols := 2; rows := [[1; 0]; [1 # 2; 1]]%Q |}.

Definition example_reduced : DataFrame :=
  {| index := ["A"; "B"; "C"]; columns := ["R2"; "R1"];
     values := [[-2; 0]; [0; 1]; [1; -1 # 2]]%Q |}.

(** A matrix over two molecules and no reaction. *)
Definition no_reaction_matrix : DataFrame :=
  {| index := ["A"; "B"]; columns := []; values := [[]; []] |}.

(** A matrix over no molecule and one reaction. *)
Definition no_molecule_matrix : DataFrame :=
  {| index := []; columns := ["R1"]; values := [] |}.

(** ** What the reducer relies on from the library routines

    For an M x N array the factorisation returns a permutation factor with
    M rows and an upper factor with min(M, N) rows and N columns; the
    inverse of an array has as many rows as the array. *)
Definition lu_contract (lu : ndarray → result (ndarray * ndarray * ndarray)) : Prop :=
  ∀ a P L U, lu a = Ok (P, L, U) →
    length (rows P) = length (rows a)
    ∧ length (rows U) = min (length (rows a)) (ncols a)
    ∧ ncols U = ncols a.

Definition inv_contract (inv : ndarray → result ndarray) : Prop :=
  ∀ a b, inv a = Ok b → length (rows b) = length (rows a).

(** ** Notions used in the further properties *)

(** The category of the reversed reaction. *)
Definition swap_category (c : Category) : Category :=
  match c with
  | REACTION_1_n => REACTION_n_1
  | REACTION_n_1 => REACTION_1_n
  | c => c
  end.

(** The coefficient of a molecule in a reactant or product list, read from
    the list itself: the coefficient of the last entry naming it, 0 when no
    entry names it. *)
Definition last_coefficient (l : list MoleculeStoichiometry) (m : string) : Q :=
  default 0%Q (stoichiometry <$> last (filter (λ e, name (molecule e) = m) l)).

(** A reaction listing [A] twice among its reactants. *)
Definition R3_A_A_to_B : Reaction :=
  {| label := "R3"; reactants := [mk "A" 1; mk "A" 2]; products := [mk "B" 1];
     category := REACTION_n_1 |}.

(** The reverse of [R1_A_to_B]. *)
Definition R4_B_to_A : Reaction :=
  {| label := "R4"; reactants := [mk "B" 1]; products := [mk "A" 1];
     category := REACTION_1_1 |}.

(** The row of a permutation matrix with [n] columns whose 1 is at [s]. *)
Definition unit_row (n s : nat) : list Q :=
  (λ j, if decide (j = s) then 1%Q else 0%Q) <$> seq 0 n.

(** The value of a cell, 0 where the frame has none. *)
Definition cell_value (df : DataFrame) (m c : string) : Q :=
  default 0%Q (cell df m c).

(** An inversion stand-in whose result is slightly off: every entry of
    the array scaled by 0.999 (used to exercise the search for the 1). *)
Definition inexact_inv (a : ndarray) : result ndarray :=
  Ok {| ncols := ncols a;
        rows := (λ row : list Q, (λ x : Q, Qred (x * (999 # 1000))) <$> row)
                  <$> rows a |}.

(** The one point of the factorisation's contract that holds on every
    array, empty ones included, for the library versions that return on
    them: the upper factor of an M x N array has min(M, N) rows. *)
Definition upper_factor_contract
    (lu : ndarray → result (ndarray * ndarray * ndarray)) : Prop :=
  ∀ a P L U, lu a = Ok (P, L, U) →
    length (rows U) = min (length (rows a)) (ncols a).

(** * Properties *)

(** ** The error monad *)

Lemma mapM_result_Ok {A B} (f : A → result B) (g : A → B) (l : list A) :
  (∀ a, a ∈ l → f a = Ok (g a)) → mapM f l = Ok (g <$> l).
Proof.
  induction l as [|a l IH]; intros Hf; [done|].
  cbn. rewrite (Hf a) by left. cbn.
  rewrite IH; [done|]. intros b Hb. apply Hf. by right.
Qed.

Lemma mapM_result_length {A B} (f : A → result B) (l : list A) (k : list B) :
  mapM f l = Ok k → length k = length l.
Proof.
  revert k. induction l as [|a l IH]; intros k; cbn.
  - by intros [= <-].
  - destruct (f a) as [b|e]; cbn; [|done].
    destruct (mapM f l) as [k'|e]; cbn; [|done].
    intros [= <-]. cbn. by rewrite (IH k').
Qed.

Lemma mapM_result_Forall2 {A B} (f : A → result B) (l : list A) (k : list B) :
  mapM f l = Ok k → Forall2 (λ a b, f a = Ok b) l k.
Proof.
  revert k. induction l as [|a l IH]; intros k; cbn.
  - intros [= <-]. constructor.
  - destruct (f a) as [b|e] eqn:Hfa; cbn; [|done].
    destruct (mapM f l) as [k'|e]; cbn; [|done].
    intros [= <-]. constructor; [done|]. by apply IH.
Qed.

(** ** Reaction classifier *)

Lemma pysum_bool_from (n : nat) (l : list bool) :
  foldl (λ n (b : bool), if b then S n else n) n l = n + pysum_bool l.
Proof.
  unfold pysum_bool. revert n. induction l as [|b l IH]; intros n; cbn; [lia|].
  rewrite IH. destruct b; [rewrite (IH 1)|]; lia.
Qed.

Lemma pysum_bool_le (l : list bool) : pysum_bool l ≤ length l.
Proof.
  induction l as [|b l IH]; cbn; [done|].
  unfold pysum_bool. cbn. rewrite pysum_bool_from. destruct b; lia.
Qed.

Lemma pysum_bool_all (l : list bool) :
  bool_decide (pysum_bool l = length l) = forallb id l.
Proof.
  induction l as [|b l IH]; [done|].
  unfold pysum_bool. cbn. rewrite pysum_bool_from.
  pose proof (pysum_bool_le l). destruct b; cbn.
  - rewrite <- IH. apply bool_decide_ext. lia.
  - apply bool_decide_eq_false. lia.
Qed.

Lemma forallb_fmap {A} (f : A → bool) (l : list A) :
  forallb id (f <$> l) = forallb f l.
Proof. induction l as [|a l IH]; [done|]. cbn. by rewrite IH. Qed.

Lemma forallb_Qle_bool (c : Q) (l : list Q) :
  forallb (Qle_bool c) l = true ↔ Forall (λ e, (c <= e)%Q) l.
Proof.
  induction l as [|e l IH]; cbn.
  - split; [constructor|done].
  - rewrite andb_true_iff, Qle_bool_iff, IH, Forall_cons. tauto.
Qed.

(** With exactly one reactant the one-to-many predicate compares it to
    every product; [r[0]] does not raise. *)
Lemma pred_1_n_cons (x y : nat) (r0 : Q) (r p : list Q) :
  pred_1_n x y (r0 :: r) p
  = Ok (bool_decide (x = 1) && forallb (Qle_bool r0) p).
Proof.
  unfold pred_1_n. case_bool_decide; [|done].
  rewrite (mapM_result_Ok _ (Qle_bool r0)) by done. cbn.
  by rewrite <- (length_fmap (Qle_bool r0) p), pysum_bool_all, forallb_fmap.
Qed.

Lemma pred_n_1_cons (x y : nat) (p0 : Q) (r p : list Q) :
  pred_n_1 x y r (p0 :: p)
  = Ok (bool_decide (y = 1) && forallb (Qle_bool p0) r).
Proof.
  unfold pred_n_1. case_bool_decide; [|done].
  rewrite (mapM_result_Ok _ (Qle_bool p0)) by done. cbn.
  by rewrite <- (length_fmap (Qle_bool p0) r), pysum_bool_all, forallb_fmap.
Qed.

Lemma getReactionSummaryCategory_classify reactants products :
  getReactionSummaryCategory reactants products
  = Ok (classify (stoichiometry <$> real_entries reactants)
                 (stoichiometry <$> real_entries products)).
Proof.
  unfold getReactionSummaryCategory. rewrite !length_fmap.
  rewrite <- (length_fmap stoichiometry (real_entries reactants)).
  rewrite <- (length_fmap stoichiometry (real_entries products)).
  generalize (stoichiometry <$> real_entries reactants) as r.
  generalize (stoichiometry <$> real_entries products) as p.
  intros p r. destruct r as [|r0 r], p as [|p0 p]; try reflexivity.
  unfold classify, REACTION_SUMMARY_CATEGORIES, first_match.
  cbn [rc_predicate rc_category].
  rewrite pred_1_n_cons, pred_n_1_cons.
  unfold pred_redundant, pred_error, pred_1_1.
  cbn [length]. rewrite !(bool_decide_eq_false_2 (S _ = 0)) by done.
  cbn [andb orb negb mbind result_bind].
  destruct (_ && _ && Qeq_bool _ _); [done|].
  destruct (_ && forallb (Qle_bool r0) _); [done|].
  by destruct (_ && forallb (Qle_bool p0) _).
Qed.

Lemma pysum_singleton (c : Q) : (pysum [c] == c)%Q.
Proof. unfold pysum. cbn. ring. Qed.

(** C6: the five predicates are tried in the order redundant, error,
    one-to-one, one-to-many, many-to-one and the first that holds decides;
    with [x], [y] the numbers of real reactants and products and [r], [p]
    their coefficients: redundant when x = 0 and y = 0; error when exactly
    one of them is 0; one-to-one when x = y = 1 and the sums agree;
    one-to-many when x = 1 and every product coefficient is at least the
    reactant's (and no earlier rule applies); many-to-one when y = 1 and
    every reactant coefficient is at least the product's (and no earlier
    rule applies); many-to-many otherwise. *)
Theorem classifier_priority (reactants products : list MoleculeStoichiometry) :
  let r := stoichiometry <$> real_entries reactants in
  let p := stoichiometry <$> real_entries products in
  let x := length r in
  let y := length p in
  let one_to_one := x = 1 ∧ y = 1 ∧ (pysum r == pysum p)%Q in
  let one_to_many := ∃ r0, r = [r0] ∧ Forall (λ e, (r0 <= e)%Q) p in
  let many_to_one := ∃ p0, p = [p0] ∧ Forall (λ e, (p0 <= e)%Q) r in
  let c := getReactionSummaryCategory reactants products in
  (x = 0 ∧ y = 0 → c = Ok REACTION_REDUNDANT) ∧
  ((x = 0 ∧ y ≠ 0) ∨ (x ≠ 0 ∧ y = 0) → c = Ok REACTION_ERROR) ∧
  (one_to_one → c = Ok REACTION_1_1) ∧
  (y ≠ 0 → ¬ one_to_one → one_to_many → c = Ok REACTION_1_n) ∧
  (x ≠ 0 → ¬ one_to_one → ¬ one_to_many → many_to_one → c = Ok REACTION_n_1) ∧
  (x ≠ 0 → y ≠ 0 → ¬ one_to_one → ¬ one_to_many → ¬ many_to_one
   → c = Ok REACTION_n_n).
Proof.
  cbv zeta. rewrite getReactionSummaryCategory_classify.
  generalize (stoichiometry <$> real_entries reactants) as r.
  generalize (stoichiometry <$> real_entries products) as p.
  intros p r. destruct r as [|r0 r'], p as [|p0 p']; cbn [classify length].
  1-3: repeat split; try done; try (intros; lia); intros;
       by repeat match goal with
                 | H : ∃ _ : Q, [] = _ ∧ _ |- _ => destruct H as (? & ? & ?)
                 end.
  set (one_to_one := S (length r') = 1 ∧ S (length p') = 1
                     ∧ (pysum (r0 :: r') == pysum (p0 :: p'))%Q).
  set (one_to_many := ∃ c, r0 :: r' = [c] ∧ Forall (λ e, (c <= e)%Q) (p0 :: p')).
  set (many_to_one := ∃ c, p0 :: p' = [c] ∧ Forall (λ e, (c <= e)%Q) (r0 :: r')).
  assert (H11 : bool_decide (S (length r') = 1) && bool_decide (S (length p') = 1)
                && Qeq_bool (pysum (r0 :: r')) (pysum (p0 :: p')) = true
                ↔ one_to_one).
  { unfold one_to_one.
    rewrite !andb_true_iff, !bool_decide_eq_true, Qeq_bool_iff. tauto. }
  assert (H1n : bool_decide (S (length r') = 1)
                && forallb (Qle_bool r0) (p0 :: p') = true ↔ one_to_many).
  { unfold one_to_many.
    rewrite andb_true_iff, bool_decide_eq_true, forallb_Qle_bool. split.
    - intros [Hlen Hall]. destruct r'; [|done]. by exists r0.
    - intros (c & [= -> ->] & Hall). done. }
  assert (Hn1 : bool_decide (S (length p') = 1)
                && forallb (Qle_bool p0) (r0 :: r') = true ↔ many_to_one).
  { unfold many_to_one.
    rewrite andb_true_iff, bool_decide_eq_true, forallb_Qle_bool. split.
    - intros [Hlen Hall]. destruct p'; [|done]. by exists p0.
    - intros (c & [= -> ->] & Hall). done. }
  clearbody one_to_one one_to_many many_to_one.
  destruct (_ && _ && Qeq_bool _ _);
    [|destruct (_ && forallb (Qle_bool r0) _);
      [|destruct (_ && forallb (Qle_bool p0) _)]];
    repeat split; intros; try done; try lia; exfalso;
    destruct H11, H1n, Hn1; intuition discriminate.
Qed.

Lemma classify_six (r p : list Q) :
  classify r p ∈ [REACTION_REDUNDANT; REACTION_ERROR; REACTION_1_1;
                  REACTION_1_n; REACTION_n_1; REACTION_n_n].
Proof.
  destruct r as [|r0 r], p as [|p0 p]; cbn [classify];
    repeat match goal with |- context [if ?b then _ else _] => destruct b end;
    set_solver.
Qed.

Lemma real_entries_idemp (l : list MoleculeStoichiometry) :
  real_entries (real_entries l) = real_entries l.
Proof.
  unfold real_entries. induction l as [|m l IH]; [done|].
  rewrite filter_cons. case_decide; [|done].
  rewrite filter_cons. case_decide; [|done]. by rewrite IH.
Qed.

(** C7: the classifier is total: for all reactant and product lists it
    returns (never raises) one category out of redundant, error,
    one-to-one, one-to-many, many-to-one, many-to-many; the result only
    depends on the entries that are not the empty-set placeholder; the
    reaction "empty set -> A" and the reaction "A + B -> empty set" are
    both classified error. *)
Theorem classifier_total :
  (∀ reactants products,
     ∃ c, getReactionSummaryCategory reactants products = Ok c
          ∧ c ∈ [REACTION_REDUNDANT; REACTION_ERROR; REACTION_1_1;
                 REACTION_1_n; REACTION_n_1; REACTION_n_n])
  ∧ (∀ reactants products,
       getReactionSummaryCategory reactants products
       = getReactionSummaryCategory (real_entries reactants)
                                    (real_entries products))
  ∧ getReactionSummaryCategory [mk EMPTYSET 1] [mk "A" 1] = Ok REACTION_ERROR
  ∧ getReactionSummaryCategory [] [mk "A" 1] = Ok REACTION_ERROR
  ∧ getReactionSummaryCategory [mk "A" 1; mk "B" 1] [mk EMPTYSET 1]
    = Ok REACTION_ERROR
  ∧ getReactionSummaryCategory [mk "A" 1; mk "B" 1] [] = Ok REACTION_ERROR.
Proof.
  split; [|split; [|by vm_compute]].
  - intros reactants products. eexists. split.
    + apply getReactionSummaryCategory_classify.
    + apply classify_six.
  - intros reactants products.
    by rewrite !getReactionSummaryCategory_classify, !real_entries_idemp.
Qed.

(** C10: one real reactant and one real product with unequal coefficients,
    the product's being the larger, are classified one-to-many. *)
Theorem single_pair_amplified_is_one_to_many
    (reactants products : list MoleculeStoichiometry) (r0 p0 : Q) :
  stoichiometry <$> real_entries reactants = [r0] →
  stoichiometry <$> real_entries products = [p0] →
  ¬ (r0 == p0)%Q →
  (r0 <= p0)%Q →
  getReactionSummaryCategory reactants products = Ok REACTION_1_n.
Proof.
  intros Hr Hp Hne Hle.
  rewrite getReactionSummaryCategory_classify, Hr, Hp. cbn [classify length].
  assert (Qeq_bool (pysum [r0]) (pysum [p0]) = false) as ->.
  { apply not_true_is_false. rewrite Qeq_bool_iff, !pysum_singleton. done. }
  cbn. apply Qle_bool_iff in Hle. by rewrite Hle.
Qed.

Lemma single_pair_amplified_is_one_to_many_witness :
  getReactionSummaryCategory [mk "A" 1] [mk "B" 2] = Ok REACTION_1_n.
Proof.
  apply (single_pair_amplified_is_one_to_many [mk "A" 1] [mk "B" 2] 1 2).
  - reflexivity.
  - reflexivity.
  - vm_compute. discriminate.
  - vm_compute. discriminate.
Defined.

(** Scenarios B and C of the classifier. *)
Example scenario_B :
  getReactionSummaryCategory [mk "A" 2] [mk "B" 2] = Ok REACTION_1_1.
Proof. reflexivity. Qed.

Example scenario_C :
  getReactionSummaryCategory [mk "A" 1] [mk "B" 1; mk "C" 1] = Ok REACTION_1_n.
Proof. reflexivity. Qed.

(** ** DataFrame axes and cells *)

Lemma positions_from_not_elem (i : nat) (l : list string) (x : string) :
  x ∉ l → positions_from i l x = [].
Proof.
  revert i. induction l as [|y l IH]; intros i Hx; [done|].
  cbn. rewrite not_elem_of_cons in Hx. destruct Hx as [Hxy Hx].
  case_decide; [congruence|]. by apply IH.
Qed.

Lemma positions_from_NoDup (i : nat) (l : list string) (x : string) :
  NoDup l → x ∈ l →
  ∃ j, positions_from i l x = [i + j] ∧ l !! j = Some x.
Proof.
  revert i. induction l as [|y l IH]; intros i Hnd Hx; [by inversion Hx|].
  apply NoDup_cons in Hnd as [Hy Hnd]. cbn. case_decide as Hyx.
  - subst y. exists 0. rewrite positions_from_not_elem by done.
    by rewrite Nat.add_0_r.
  - apply elem_of_cons in Hx as [->|Hx]; [done|].
    destruct (IH (S i) Hnd Hx) as (j & Hj & Hl).
    exists (S j). rewrite Hj. split; [f_equal; lia|done].
Qed.

Lemma positions_NoDup (l : list string) (x : string) :
  NoDup l → x ∈ l → ∃ j, positions l x = [j] ∧ l !! j = Some x.
Proof. intros Hnd Hx. apply (positions_from_NoDup 0 l x Hnd Hx). Qed.

Lemma positions_NoDup_short (l : list string) (x : string) :
  NoDup l → positions l x = [] ∨ ∃ j, positions l x = [j] ∧ l !! j = Some x.
Proof.
  intros Hnd. destruct (decide (x ∈ l)) as [Hx|Hx].
  - right. by apply positions_NoDup.
  - left. by apply positions_from_not_elem.
Qed.

Lemma DataFrame_full_well_shaped (v : Q) (idx cols : list string) :
  well_shaped (DataFrame_full v idx cols).
Proof.
  split; cbn.
  - by rewrite length_fmap.
  - apply Forall_fmap, Forall_forall. intros x Hx. cbn. by rewrite length_replicate.
Qed.

Lemma DataFrame_full_cell (v : Q) (idx cols : list string) (m c : string) :
  NoDup idx → NoDup cols → m ∈ idx → c ∈ cols →
  cell (DataFrame_full v idx cols) m c = Some v.
Proof.
  intros Hi Hc Hm Hcc. unfold cell. cbn.
  destruct (positions_NoDup idx m Hi Hm) as (i & -> & Hli).
  destruct (positions_NoDup cols c Hc Hcc) as (j & -> & Hlj). cbn.
  rewrite list_lookup_fmap, Hli. cbn.
  apply lookup_replicate_2. by eapply lookup_lt_Some.
Qed.

Lemma assigned_axes (df : DataFrame) (c m : string) (v : Q) :
  index (assigned df c m v) = index df
  ∧ columns (assigned df c m v) = columns df.
Proof.
  unfold assigned. by destruct (positions _ _) as [|? [|? ?]].
Qed.

Lemma assigned_well_shaped (df : DataFrame) (c m : string) (v : Q) :
  well_shaped df → well_shaped (assigned df c m v).
Proof.
  intros [Hlen Hrows]. unfold assigned.
  destruct (positions _ _) as [|j [|? ?]]; [done| |done].
  split; cbn.
  - rewrite length_zip_with. lia.
  - apply Forall_forall. intros row Hrow.
    apply list_elem_of_lookup in Hrow as [i Hrow].
    apply lookup_zip_with_Some in Hrow as (l & row0 & -> & _ & Hrow0).
    assert (length row0 = length (columns df)) as Hr0.
    { eapply Forall_forall in Hrows; [done|]. by eapply list_elem_of_lookup_2. }
    case_decide; [by rewrite length_insert|done].
Qed.

(** Reading a cell after one chained assignment. *)
Lemma assigned_cell (df : DataFrame) (cw mw : string) (v : Q)
    (m c : string) :
  well_shaped df → NoDup (index df) → NoDup (columns df) →
  m ∈ index df → c ∈ columns df →
  cell (assigned df cw mw v) m c
  = if decide (cw = c ∧ mw = m) then Some v else cell df m c.
Proof.
  intros [Hlen Hrows] Hni Hnc Hm Hc.
  destruct (positions_NoDup _ _ Hni Hm) as (i & Hpi & Hli).
  destruct (positions_NoDup _ _ Hnc Hc) as (j & Hpj & Hlj).
  assert (is_Some (values df !! i)) as [row Hrow].
  { apply lookup_lt_is_Some. rewrite Hlen. by eapply lookup_lt_Some. }
  assert (length row = length (columns df)) as Hrl.
  { eapply Forall_forall in Hrows; [done|]. by eapply list_elem_of_lookup_2. }
  assert (cell df m c = row !! j) as Hcell.
  { unfold cell. rewrite Hpi, Hpj. cbn. by rewrite Hrow. }
  unfold assigned.
  destruct (positions_NoDup_short (columns df) cw Hnc) as [Hpw|(jw & Hpw & Hjw)];
    rewrite Hpw.
  { case_decide as Heq; [|done]. destruct Heq as [Heq _]. subst cw.
    rewrite Hpw in Hpj. done. }
  unfold cell. cbn. rewrite Hpi, Hpj. cbn.
  rewrite lookup_zip_with, Hli, Hrow. cbn.
  destruct (decide (m = mw)) as [->|Hmw].
  - destruct (decide (jw = j)) as [->|Hj].
    + assert (cw = c) as -> by congruence.
      rewrite decide_True by done.
      apply list_lookup_insert_eq. rewrite Hrl. by eapply lookup_lt_Some.
    + rewrite list_lookup_insert_ne by done.
      rewrite decide_False; [by rewrite <- Hcell|].
      intros [-> _]. apply Hj. by eapply NoDup_lookup.
  - rewrite decide_False by (intros [_ ->]; done). by rewrite <- Hcell.
Qed.

(** ** Stoichiometry matrix builder *)

Lemma foldl_fmap_comp {A B C} (f : A → B → A) (g : C → B) (a : A) (l : list C) :
  foldl f a (g <$> l) = foldl (λ a c, f a (g c)) a l.
Proof. revert a. induction l as [|c l IH]; intros a; [done|]. cbn. apply IH. Qed.

Lemma for_each_Ok {S A} (P : S → Prop) (body : S → A → result S)
    (step : S → A → S) (l : list A) (s : S) :
  (∀ s a, a ∈ l → P s → body s a = Ok (step s a) ∧ P (step s a)) →
  P s → for_each body s l = Ok (foldl step s l) ∧ P (foldl step s l).
Proof.
  revert s. induction l as [|a l IH]; intros s Hbody Hs; [done|].
  cbn. destruct (Hbody s a) as [-> Hs']; [by left|done|]. cbn.
  apply IH; [|done]. intros s' a' Ha'. apply Hbody. by right.
Qed.

Lemma setitem_chained_Ok (df : DataFrame) (c m : string) (v : Q) :
  c ∈ columns df → setitem_chained df c m v = Ok (assigned df c m v).
Proof.
  intros Hc. unfold setitem_chained.
  destruct (positions (columns df) c) eqn:Hp; [|done].
  exfalso. clear -Hc Hp. unfold positions in Hp. revert Hp.
  generalize 0. induction (columns df) as [|y l IH]; intros i; [by inversion Hc|].
  cbn. case_decide; [done|]. apply IH.
  apply elem_of_cons in Hc as [->|Hc]; done.
Qed.

(** The builder never raises: it performs its assignments one after the
    other on the frame filled with 0. *)
Lemma getStoichiometryMatrix_writes reactions molecules :
  getStoichiometryMatrix reactions molecules
  = Ok (foldl apply_write (DataFrame_full 0%Q molecules (label <$> reactions))
          (reactions ≫= reaction_writes)).
Proof.
  unfold getStoichiometryMatrix.
  set (cols := label <$> reactions).
  assert (∀ rs df, (∀ r, r ∈ rs → label r ∈ cols) → columns df = cols →
    for_each (λ sm reaction,
                for_each (λ sm molecule_name,
                            setitem_chained sm (label reaction) molecule_name
                              (net_stoichiometry reaction molecule_name))
                  sm (reaction_molecules reaction)) df rs
    = Ok (foldl apply_write df (rs ≫= reaction_writes))) as Hgen.
  { induction rs as [|r rs IH]; intros df Hrs Hdf; [done|].
    cbn [for_each].
    destruct (for_each_Ok (λ sm, columns sm = cols)
                (λ sm molecule_name,
                   setitem_chained sm (label r) molecule_name
                     (net_stoichiometry r molecule_name))
                (λ sm molecule_name,
                   assigned sm (label r) molecule_name
                     (net_stoichiometry r molecule_name))
                (reaction_molecules r) df) as [-> Hcols]; [|done|].
    { intros sm mn _ Hsm. split.
      - apply setitem_chained_Ok. rewrite Hsm. apply Hrs. by left.
      - by rewrite (proj2 (assigned_axes _ _ _ _)). }
    cbn [mbind result_bind]. rewrite IH; [|intros; apply Hrs; by right|done].
    cbn. rewrite foldl_app. do 2 f_equal.
    unfold reaction_writes. by rewrite foldl_fmap_comp. }
  apply Hgen; [|done]. intros r Hr. apply list_elem_of_fmap. by exists r.
Qed.

Lemma foldl_apply_write_axes (ws : list (string * string * Q)) (df : DataFrame) :
  index (foldl apply_write df ws) = index df
  ∧ columns (foldl apply_write df ws) = columns df.
Proof.
  revert df. induction ws as [|w ws IH]; intros df; [done|].
  cbn. destruct (IH (apply_write df w)) as [-> ->].
  apply assigned_axes.
Qed.

Lemma foldl_apply_write_well_shaped (ws : list (string * string * Q)) df :
  well_shaped df → well_shaped (foldl apply_write df ws).
Proof.
  revert df. induction ws as [|w ws IH]; intros df Hdf; [done|].
  cbn. apply IH. by apply assigned_well_shaped.
Qed.

Section writes.
Context (m c : string).

Let targets (w : string * string * Q) : Prop := w.1.1 = c ∧ w.1.2 = m.

Let inv (df : DataFrame) : Prop :=
  well_shaped df ∧ NoDup (index df) ∧ NoDup (columns df)
  ∧ m ∈ index df ∧ c ∈ columns df.

Lemma apply_write_inv df w : inv df → inv (apply_write df w).
Proof.
  intros (Hws & Hi & Hc & Hm & Hcc). unfold inv, apply_write.
  destruct (assigned_axes df w.1.1 w.1.2 w.2) as [-> ->].
  split; [by apply assigned_well_shaped|done].
Qed.

(** Assignments to other cells leave the cell as it is. *)
Lemma foldl_writes_untouched ws df :
  inv df → Forall (λ w, ¬ targets w) ws →
  cell (foldl apply_write df ws) m c = cell df m c.
Proof.
  revert df. induction ws as [|w ws IH]; intros df Hinv Hws; [done|].
  apply Forall_cons in Hws as [Hw Hws]. cbn.
  rewrite IH by (done || by apply apply_write_inv).
  destruct Hinv as (Hs & Hi & Hc & Hm & Hcc). unfold apply_write.
  rewrite assigned_cell by done. by rewrite decide_False.
Qed.

(** When every assignment to the cell writes [v] and there is one, the
    cell holds [v] in the end. *)
Lemma foldl_writes_cell ws df v :
  inv df → Forall (λ w, targets w → w.2 = v) ws → Exists targets ws →
  cell (foldl apply_write df ws) m c = Some v.
Proof.
  revert df. induction ws as [|w ws IH]; intros df Hinv Hws Hex;
    [by inversion Hex|].
  apply Forall_cons in Hws as [Hw Hws]. cbn.
  destruct (decide (Exists targets ws)) as [Hex'|Hnex].
  - apply IH; [by apply apply_write_inv|done..].
  - apply Exists_cons in Hex as [Hex|Hex]; [|done].
    rewrite foldl_writes_untouched;
      [|by apply apply_write_inv|by apply not_Exists_Forall; [apply _|]].
    destruct Hinv as (Hs & Hi & Hc & Hm & Hcc). unfold apply_write.
    rewrite assigned_cell by done.
    rewrite decide_True by done. f_equal. by apply Hw.
Qed.
End writes.

Lemma stoichiometry_dict_dom_from (l : list MoleculeStoichiometry) (d : gmap string Q) :
  dom (foldl (λ d r, <[name (molecule r) := stoichiometry r]> d) d l)
  = dom d ∪ list_to_set (names l).
Proof.
  revert d. induction l as [|r l IH]; intros d; cbn.
  - set_solver.
  - rewrite IH, dom_insert_L. set_solver.
Qed.

Lemma stoichiometry_dict_dom (l : list MoleculeStoichiometry) :
  dom (stoichiometry_dict l) = list_to_set (names l).
Proof. unfold stoichiometry_dict. rewrite stoichiometry_dict_dom_from. set_solver. Qed.

Lemma stoichiometry_dict_None (l : list MoleculeStoichiometry) (m : string) :
  stoichiometry_dict l !! m = None ↔ m ∉ names l.
Proof.
  rewrite <- not_elem_of_dom, stoichiometry_dict_dom. set_solver.
Qed.

(** In a list that names each molecule once, the coefficient the dict
    gives for a molecule is the one of its entry. *)
Lemma stoichiometry_dict_entry (l : list MoleculeStoichiometry) (e : MoleculeStoichiometry) :
  NoDup (names l) → e ∈ l →
  stoichiometry_dict l !! name (molecule e) = Some (stoichiometry e).
Proof.
  unfold stoichiometry_dict. generalize (∅ : gmap string Q) as d.
  induction l as [|r l IH]; intros d Hnd He; [by inversion He|].
  cbn in Hnd. apply NoDup_cons in Hnd as [Hr Hnd].
  apply elem_of_cons in He as [->|He]; cbn.
  - assert (∀ d' : gmap string Q, d' !! name (molecule r) = Some (stoichiometry r) →
              foldl (λ d r, <[name (molecule r) := stoichiometry r]> d) d' l
                !! name (molecule r) = Some (stoichiometry r)) as Hkeep.
    { clear IH Hnd. induction l as [|r' l IHl]; intros d' Hd'; [done|].
      cbn. apply IHl.
      - cbn in Hr. set_solver.
      - rewrite lookup_insert_ne; [done|]. cbn in Hr. set_solver. }
    apply Hkeep. apply lookup_insert_eq.
  - by apply IH.
Qed.

Lemma elem_of_reaction_molecules (reaction : Reaction) (m : string) :
  m ∈ reaction_molecules reaction
  ↔ m ∈ names (reactants reaction) ∨ m ∈ names (products reaction).
Proof.
  unfold reaction_molecules.
  rewrite elem_of_elements, elem_of_union, !stoichiometry_dict_dom. set_solver.
Qed.

Lemma NoDup_label_inj (rs : list Reaction) (r r' : Reaction) :
  NoDup (label <$> rs) → r ∈ rs → r' ∈ rs → label r = label r' → r = r'.
Proof.
  intros Hnd Hr Hr' Hl.
  apply list_elem_of_lookup in Hr as [i Hi].
  apply list_elem_of_lookup in Hr' as [j Hj].
  assert (i = j) as ->.
  { eapply NoDup_lookup; [done| |].
    - by rewrite list_lookup_fmap, Hi.
    - rewrite list_lookup_fmap, Hj. cbn. by rewrite Hl. }
  congruence.
Qed.

Lemma elem_of_writes (rs : list Reaction) (w : string * string * Q) :
  w ∈ (rs ≫= reaction_writes)
  ↔ ∃ r, r ∈ rs ∧ w.1.2 ∈ reaction_molecules r
         ∧ w = (label r, w.1.2, net_stoichiometry r w.1.2).
Proof.
  rewrite list_elem_of_bind. unfold reaction_writes. split.
  - intros (r & Hw & Hr). apply list_elem_of_fmap in Hw as (m & -> & Hm).
    exists r. done.
  - intros (r & Hr & Hm & Hw). exists r. split; [|done].
    apply list_elem_of_fmap. by exists w.1.2.
Qed.

Lemma not_elem_of_reaction_molecules (reaction : Reaction) (m : string) :
  m ∉ reaction_molecules reaction →
  (m ∉ names (reactants reaction)) ∧ (m ∉ names (products reaction)).
Proof. rewrite elem_of_reaction_molecules. tauto. Qed.

(** C5: with pairwise distinct reaction labels and a duplicate-free list of
    molecules, the cell of molecule [m] and reaction [r] holds the
    coefficient of [m] among the products of [r] (0 if none) minus its
    coefficient among the reactants (0 if none); it is exactly 0 when [m] is
    not involved in [r], and equal to 0 when [m] is a reactant and a product
    with equal coefficients. *)
Theorem stoichiometry_matrix_cells
    (reactions : list Reaction) (molecules : list string)
    (r : Reaction) (m : string) :
  NoDup (label <$> reactions) → NoDup molecules →
  r ∈ reactions → m ∈ molecules →
  ∃ M, getStoichiometryMatrix reactions molecules = Ok M ∧
  cell M m (label r)
  = Some (dict_get (stoichiometry_dict (products r)) m
          - dict_get (stoichiometry_dict (reactants r)) m)%Q
  ∧ (m ∉ names (reactants r) → m ∉ names (products r) →
     cell M m (label r) = Some 0%Q)
  ∧ (∀ a b, stoichiometry_dict (reactants r) !! m = Some a →
            stoichiometry_dict (products r) !! m = Some b →
            (a == b)%Q →
            ∃ v, cell M m (label r) = Some v ∧ (v == 0)%Q).
Proof.
  intros Hlabels Hmols Hr Hm.
  eexists. split; [apply getStoichiometryMatrix_writes|].
  set (M := foldl _ _ _).
  assert (cell M m (label r) = Some (net_stoichiometry r m)) as Hcell.
  { subst M.
    set (df0 := DataFrame_full 0%Q molecules (label <$> reactions)).
    assert (well_shaped df0 ∧ NoDup (index df0) ∧ NoDup (columns df0)
            ∧ m ∈ index df0 ∧ label r ∈ columns df0) as Hinv.
    { split; [apply DataFrame_full_well_shaped|]. cbn.
      repeat split; try done. apply list_elem_of_fmap. by exists r. }
    destruct (decide (m ∈ reaction_molecules r)) as [Hin|Hout].
    - apply foldl_writes_cell; [done| |].
      + apply Forall_forall. intros w Hw [Hwc Hwm].
        apply elem_of_writes in Hw as (r' & Hr' & _ & Hw).
        assert (r' = r) as ->.
        { apply (NoDup_label_inj reactions); [done..|]. rewrite Hw in Hwc. done. }
        rewrite Hw. cbn. by rewrite Hwm.
      + apply Exists_exists. exists (label r, m, net_stoichiometry r m).
        split; [|done]. apply elem_of_writes. by exists r.
    - rewrite foldl_writes_untouched; [|done|].
      + unfold df0. rewrite DataFrame_full_cell;
          [|done..|apply list_elem_of_fmap; by exists r].
        apply not_elem_of_reaction_molecules in Hout as [Hre Hpr].
        unfold net_stoichiometry, dict_get.
        by rewrite (proj2 (stoichiometry_dict_None _ _) Hre),
          (proj2 (stoichiometry_dict_None _ _) Hpr).
      + apply Forall_forall. intros w Hw [Hwc Hwm].
        apply elem_of_writes in Hw as (r' & Hr' & Hmw & Hw).
        assert (r' = r) as ->.
        { apply (NoDup_label_inj reactions); [done..|]. rewrite Hw in Hwc. done. }
        by rewrite Hwm in Hmw. }
  split; [exact Hcell|split].
  - intros Hre Hpr. rewrite Hcell. unfold net_stoichiometry, dict_get.
    by rewrite (proj2 (stoichiometry_dict_None _ _) Hre),
      (proj2 (stoichiometry_dict_None _ _) Hpr).
  - intros a b Ha Hb Hab. eexists. split; [exact Hcell|].
    unfold net_stoichiometry, dict_get. rewrite Ha, Hb. cbn. rewrite Hab. ring.
Qed.

Lemma stoichiometry_matrix_cells_witness :
  ∃ M, getStoichiometryMatrix [R1_A_to_B; R2_2A_to_C] ["A"; "B"; "C"] = Ok M
       ∧ cell M "A" "R2" = Some (0 - 2)%Q.
Proof.
  destruct (stoichiometry_matrix_cells [R1_A_to_B; R2_2A_to_C] ["A"; "B"; "C"]
              R2_2A_to_C "A") as (M & HM & Hc & _).
  - apply (bool_decide_unpack _). vm_compute. exact I.
  - apply (bool_decide_unpack _). vm_compute. exact I.
  - right. left.
  - apply (bool_decide_unpack _). vm_compute. exact I.
  - exists M. split; [exact HM|exact Hc].
Defined.

Lemma getStoichiometryMatrix_axes reactions molecules :
  ∃ M, getStoichiometryMatrix reactions molecules = Ok M
       ∧ index M = molecules ∧ columns M = label <$> reactions.
Proof.
  eexists. split; [apply getStoichiometryMatrix_writes|].
  by destruct (foldl_apply_write_axes (reactions ≫= reaction_writes)
                 (DataFrame_full 0%Q molecules (label <$> reactions))) as [-> ->].
Qed.

(** C3, as the builder behaves: the builder does not inspect the labels.
    For every list of reactions, with or without a repeated label, it
    returns a matrix (it does not fail) whose column labels are the
    reaction labels in the given order, one column per reaction, and whose
    row labels are the given molecules. *)
Theorem builder_accepts_any_labels
    (reactions : list Reaction) (molecules : list string) :
  ∃ M, getStoichiometryMatrix reactions molecules = Ok M
       ∧ columns M = label <$> reactions
       ∧ length (columns M) = length reactions
       ∧ index M = molecules.
Proof.
  destruct (getStoichiometryMatrix_axes reactions molecules) as (M & HM & Hi & Hc).
  exists M. rewrite Hc, length_fmap. done.
Qed.

(** C3, refuted as stated: two reactions sharing the label R1 are built
    into a matrix with two columns labelled R1; no error is raised. *)
Lemma duplicate_labels_are_built :
  label R1_A_to_B = label R1_B_to_C
  ∧ ∃ M, getStoichiometryMatrix [R1_A_to_B; R1_B_to_C] ["A"; "B"; "C"] = Ok M
         ∧ index M = ["A"; "B"; "C"]
         ∧ columns M = ["R1"; "R1"].
Proof. split; [reflexivity|]. eexists. split; [reflexivity|]. split; reflexivity. Qed.

(** ** Message construction *)

Lemma elem_of_getNonBoundaryMolecules simple (rs : list Reaction) (m : string) :
  m ∈ _getNonBoundaryMolecules simple rs
  ↔ ∃ r, r ∈ rs ∧ (m ∈ names (reactants r) ∨ m ∈ names (products r)).
Proof.
  unfold _getNonBoundaryMolecules. rewrite elem_of_elements.
  assert (∀ (acc : gset string),
    m ∈ foldl (λ (molecules : gset string) reaction,
                 molecules
                 ∪ list_to_set ((λ r, name (molecule r)) <$> reactants reaction)
                 ∪ list_to_set ((λ r, name (molecule r)) <$> products reaction))
          acc rs
    ↔ m ∈ acc ∨ ∃ r, r ∈ rs ∧ (m ∈ names (reactants r) ∨ m ∈ names (products r)))
    as Hgen.
  { induction rs as [|r rs IH]; intros acc; cbn [foldl].
    - split; [by left|]. intros [?|(r & Hr & _)]; [done|by inversion Hr].
    - rewrite IH, !elem_of_union, !elem_of_list_to_set. unfold names. split.
      + intros [[[?|?]|?]|(r' & Hr' & Hm)]; [by left|right..].
        * exists r. split; [by left|by left].
        * exists r. split; [by left|by right].
        * exists r'. split; [by right|done].
      + intros [?|(r' & Hr' & Hm)]; [by left; left; left|].
        apply elem_of_cons in Hr' as [->|Hr'].
        * left. destruct Hm; [left; by right|by right].
        * right. by exists r'. }
  rewrite Hgen. split; [|by right]. intros [Hm|?]; [|done]. by inversion Hm.
Qed.

(** C9: the matrix built when a Message is constructed comes from the
    non-boundary reactions only.  Its columns are the labels of the
    non-boundary reactions, in order; with reaction labels unique in the
    model, no boundary reaction's label is a column; its rows are, without
    repetition, exactly the names of the molecules that are a reactant or a
    product of some non-boundary reaction. *)
Theorem matrix_from_nonboundary_reactions (simple : SimpleSBML) :
  NoDup (label <$> sbml_reactions simple) →
  ∃ msg, Message_init simple = Ok msg
    ∧ columns (stoichiometry_matrix msg)
      = label <$> filter (λ r, category r ≠ REACTION_BOUNDARY) (sbml_reactions simple)
    ∧ (∀ r, r ∈ sbml_reactions simple → category r = REACTION_BOUNDARY →
            label r ∉ columns (stoichiometry_matrix msg))
    ∧ NoDup (index (stoichiometry_matrix msg))
    ∧ (∀ m, m ∈ index (stoichiometry_matrix msg)
            ↔ ∃ r, r ∈ sbml_reactions simple
                   ∧ category r ≠ REACTION_BOUNDARY
                   ∧ (m ∈ names (reactants r) ∨ m ∈ names (products r))).
Proof.
  intros Hnd. unfold Message_init.
  destruct (getStoichiometryMatrix_axes (_getNonBoundaryReactions simple)
              (_getNonBoundaryMolecules simple (_getNonBoundaryReactions simple)))
    as (M & -> & Hi & Hc).
  eexists. split; [reflexivity|]. cbn [stoichiometry_matrix].
  rewrite Hi, Hc. unfold _getNonBoundaryReactions. repeat split.
  - intros r Hr Hb Hin. apply list_elem_of_fmap in Hin as (r' & Hl & Hr').
    apply list_elem_of_filter in Hr' as [Hnb Hr'].
    assert (r = r') as <- by by apply (NoDup_label_inj (sbml_reactions simple)).
    done.
  - apply NoDup_elements.
  - rewrite elem_of_getNonBoundaryMolecules. intros (r & Hr & Hm).
    apply list_elem_of_filter in Hr as [Hnb Hr]. by exists r.
  - rewrite elem_of_getNonBoundaryMolecules. intros (r & Hr & Hnb & Hm).
    exists r. split; [|done]. by apply list_elem_of_filter.
Qed.

Lemma matrix_from_nonboundary_reactions_witness :
  ∃ msg, Message_init (example_model [R1_A_to_B; RB_to_X; R2_2A_to_C]) = Ok msg
    ∧ columns (stoichiometry_matrix msg) = ["R1"; "R2"]
    ∧ "RB" ∉ columns (stoichiometry_matrix msg).
Proof.
  destruct (matrix_from_nonboundary_reactions
              (example_model [R1_A_to_B; RB_to_X; R2_2A_to_C]))
    as (msg & Hmsg & Hc & Hb & _ & _).
  - apply (bool_decide_unpack _). vm_compute. exact I.
  - exists msg. split; [exact Hmsg|]. split; [exact Hc|].
    apply (Hb RB_to_X); [right; left|reflexivity].
Defined.

(** ** Matrix reducer *)

Lemma scipy_lu_contract : lu_contract scipy_lu.
Proof.
  intros a P L U. unfold scipy_lu. intros [= <- <- <-]. cbn.
  by rewrite !length_fmap, !length_seq.
Qed.

Lemma scipy_inv_contract : inv_contract scipy_inv.
Proof.
  intros a b. unfold scipy_inv. case_decide; [|done].
  destruct (foldl inv_step _ _); cbn; [|done].
  intros [= <-]. cbn. by rewrite length_fmap, length_seq.
Qed.

Lemma DataFrame_of_ndarray_Ok (a : ndarray) (idx cols : list string) df :
  DataFrame_of_ndarray a idx cols = Ok df →
  df = {| index := idx; columns := cols; values := rows a |}
  ∧ length (rows a) = length idx ∧ ncols a = length cols.
Proof.
  unfold DataFrame_of_ndarray. case_decide as H; [|done].
  intros [= <-]. by destruct H.
Qed.

(** The steps of a successful [decomposeMatrix]. *)
Lemma decomposeMatrix_Ok lu inv (mat : DataFrame) (L : ndarray) (R : DataFrame) :
  decomposeMatrix lu inv mat = Ok (L, R) →
  ∃ P U p_inv pivot_index new_idx,
    lu (to_numpy (transpose mat)) = Ok (P, L, U)
    ∧ inv P = Ok p_inv
    ∧ mapM (λ k, list_index k 1%Q) (rows p_inv) = Ok pivot_index
    ∧ mapM (λ idx, getitem (columns mat) idx) pivot_index = Ok new_idx
    ∧ length (rows U) = length new_idx
    ∧ ncols U = length (index mat)
    ∧ R = transpose {| index := new_idx; columns := index mat; values := rows U |}.
Proof.
  unfold decomposeMatrix. cbn [transpose index columns].
  destruct (lu _) as [[[P L'] U]|e] eqn:Hlu; cbn; [|done].
  destruct (inv P) as [p_inv|e] eqn:Hinv; cbn; [|done].
  destruct (mapM _ (rows p_inv)) as [pivot_index|e] eqn:Hpiv; cbn; [|done].
  destruct (mapM _ pivot_index) as [new_idx|e] eqn:Hidx; cbn; [|done].
  destruct (DataFrame_of_ndarray _ _ _) as [df|e] eqn:Hdf; cbn; [|done].
  intros [= <- <-].
  apply DataFrame_of_ndarray_Ok in Hdf as (-> & Hrows & Hcols).
  by exists P, U, p_inv, pivot_index, new_idx.
Qed.

Lemma getitem_Ok {A} (l : list A) (i : nat) (a : A) :
  getitem l i = Ok a ↔ l !! i = Some a.
Proof. unfold getitem. destruct (l !! i); split; congruence. Qed.

Lemma omap_lookup_Forall2 {A} (l k : list A) (js : list nat) :
  Forall2 (λ i a, l !! i = Some a) js k → omap (λ i, l !! i) js = k.
Proof.
  induction 1 as [|i a js k Hi _ IH]; [done|]. cbn. by rewrite Hi, IH.
Qed.

Lemma omap_lookup_seq {A} (pre l : list A) :
  omap (λ i, (pre ++ l) !! i) (seq (length pre) (length l)) = l.
Proof.
  revert pre. induction l as [|a l IH]; intros pre; [done|]. cbn.
  rewrite list_lookup_middle by done. f_equal.
  specialize (IH (pre ++ [a])). rewrite <- app_assoc, length_app in IH.
  cbn in IH. by rewrite Nat.add_1_r in IH.
Qed.

(** Labels looked up at a permutation of the positions are a permutation
    of the labels. *)
Lemma lookups_Permutation {A} (l k : list A) (js : list nat) :
  Forall2 (λ i a, l !! i = Some a) js k →
  js ≡ₚ seq 0 (length l) → k ≡ₚ l.
Proof.
  intros Hk Hperm. rewrite <- (omap_lookup_Forall2 l k js Hk).
  rewrite Hperm. pose proof (omap_lookup_seq [] l) as Hseq. cbn in Hseq.
  by rewrite Hseq.
Qed.

(** C2, as the reducer behaves: when [decomposeMatrix] succeeds, with
    library routines that keep their shape contract, the reduced matrix has
    the same number of rows and columns as the input and the same row
    labels in the same order; its column labels are the input's column
    labels taken in pivot order - column i carries the input label at
    position pivot_index[i] - so they are a rearrangement of the input's
    column labels when the pivot indices are a permutation of the positions,
    not necessarily in the input's order. *)
Theorem reduced_matrix_shape lu inv (mat : DataFrame) (L : ndarray) (R : DataFrame) :
  lu_contract lu → inv_contract inv →
  decomposeMatrix lu inv mat = Ok (L, R) →
  length (index R) = length (index mat)
  ∧ length (columns R) = length (columns mat)
  ∧ well_shaped R
  ∧ index R = index mat
  ∧ ∃ P U p_inv pivot_index,
      lu (to_numpy (transpose mat)) = Ok (P, L, U)
      ∧ inv P = Ok p_inv
      ∧ mapM (λ k, list_index k 1%Q) (rows p_inv) = Ok pivot_index
      ∧ Forall2 (λ i c, columns mat !! i = Some c) pivot_index (columns R)
      ∧ (pivot_index ≡ₚ seq 0 (length (columns mat)) → columns R ≡ₚ columns mat).
Proof.
  intros Hlu Hinv HR.
  apply decomposeMatrix_Ok in HR
    as (P & U & p_inv & pivot_index & new_idx & HP & Hp_inv & Hpiv & Hidx
        & HU & HUc & ->).
  cbn [transpose index columns values].
  apply mapM_result_Forall2 in Hidx.
  assert (Forall2 (λ i c, columns mat !! i = Some c) pivot_index new_idx) as Hcols.
  { eapply Forall2_impl; [exact Hidx|]. intros i c. apply getitem_Ok. }
  split; [done|]. split; [|split; [|split; [done|]]].
  - rewrite <- (Forall2_length _ _ _ Hcols).
    rewrite (mapM_result_length _ _ _ Hpiv).
    rewrite (Hinv _ _ Hp_inv). destruct (Hlu _ _ _ _ HP) as (-> & _ & _).
    cbn. by rewrite length_fmap, length_seq.
  - split; cbn.
    + by rewrite length_fmap, length_seq.
    + apply Forall_fmap, Forall_forall. intros j Hj. cbn.
      by rewrite length_fmap.
  - exists P, U, p_inv, pivot_index. repeat split; try done.
    intros Hperm. by eapply lookups_Permutation.
Qed.

(** The routines on the transposed example: the three factors multiply
    back to the array, and the inverse of the permutation factor is its
    inverse. *)
Example scipy_lu_example :
  scipy_lu (to_numpy (transpose example_matrix))
  = Ok ({| ncols := 2; rows := [[0; 1]; [1; 0]]%Q |},
        example_L,
        {| ncols := 3; rows := [[-2; 0; 1]; [0; 1; -1 # 2]]%Q |})
  ∧ matmul 3 [[0; 1]; [1; 0]]%Q
      (matmul 3 (rows example_L) [[-2; 0; 1]; [0; 1; -1 # 2]]%Q)
    = values (transpose example_matrix).
Proof. split; reflexivity. Qed.

Example scipy_inv_example :
  scipy_inv {| ncols := 2; rows := [[2; 1]; [1; 1]]%Q |}
  = Ok {| ncols := 2; rows := [[1; -1]; [-1; 2]]%Q |}
  ∧ matmul 2 [[2; 1]; [1; 1]]%Q [[1; -1]; [-1; 2]]%Q = [[1; 0]; [0; 1]]%Q.
Proof. split; reflexivity. Qed.

Lemma reduced_matrix_shape_witness :
  length (columns example_reduced) = length (columns example_matrix)
  ∧ index example_reduced = index example_matrix.
Proof.
  destruct (reduced_matrix_shape scipy_lu scipy_inv example_matrix example_L
              example_reduced scipy_lu_contract scipy_inv_contract)
    as (_ & Hcols & _ & Hrows & _).
  - vm_compute. reflexivity.
  - split; [exact Hcols|exact Hrows].
Defined.

(** C2, refuted as stated: for the matrix of R1: A -> B and R2: 2A -> C the
    factorisation pivots on R2, and the reduced matrix carries the column
    labels R2, R1 where the input has R1, R2. *)
Lemma reduced_columns_reordered :
  decomposeMatrix scipy_lu scipy_inv example_matrix = Ok (example_L, example_reduced)
  ∧ columns example_matrix = ["R1"; "R2"]
  ∧ columns example_reduced = ["R2"; "R1"]
  ∧ columns example_reduced ≠ columns example_matrix.
Proof. split; [by vm_compute|]. done. Qed.

Lemma transpose_values_no_rows (n : nat) :
  (λ j, (λ row : list Q, nth j row 0%Q) <$> []) <$> seq 0 n = replicate n [].
Proof.
  generalize 0. induction n as [|n IH]; intros i; [done|]. cbn. by rewrite IH.
Qed.

(** C4, as the reducer behaves: the reducer has no code of its own for an
    input matrix without reactions (no column).  On such an input it
    returns exactly when the factorisation and the inversion return factors
    without rows for the empty array, and raises otherwise; and whenever it
    returns, the reduced matrix is the empty matrix of the input's shape:
    no column, the input's row labels, and no value in any row. *)
Theorem reduction_without_reactions lu inv (mat : DataFrame)
    (L : ndarray) (R : DataFrame) :
  columns mat = [] →
  (decomposeMatrix lu inv mat = Ok (L, R)
   ↔ ∃ P U p_inv,
       lu (to_numpy (transpose mat)) = Ok (P, L, U)
       ∧ inv P = Ok p_inv
       ∧ rows p_inv = [] ∧ rows U = [] ∧ ncols U = length (index mat)
       ∧ R = {| index := index mat; columns := [];
                values := replicate (length (index mat)) [] |}).
Proof.
  intros Hcols. split.
  - intros HR.
    apply decomposeMatrix_Ok in HR
      as (P & U & p_inv & pivot_index & new_idx & HP & Hp_inv & Hpiv & Hidx
          & HU & HUc & ->).
    rewrite Hcols in Hidx.
    destruct pivot_index as [|i pivot_index]; [|done].
    injection Hidx as <-.
    apply mapM_result_length in Hpiv. symmetry in Hpiv.
    apply nil_length_inv in Hpiv, HU.
    exists P, U, p_inv. repeat split; try done.
    rewrite HU. unfold transpose. cbn [index columns values].
    by rewrite transpose_values_no_rows.
  - intros (P & U & p_inv & HP & Hp_inv & Hpr & HUr & HUc & ->).
    unfold decomposeMatrix. rewrite HP. cbn [mbind result_bind fst snd].
    rewrite Hp_inv. cbn [mbind result_bind]. rewrite Hpr.
    cbn [mapM mbind result_bind mret result_ret].
    unfold DataFrame_of_ndarray. rewrite HUr. cbn [length transpose index columns].
    rewrite decide_True by done. cbn.
    unfold transpose. cbn [index columns values].
    by rewrite transpose_values_no_rows.
Qed.

Lemma reduction_without_reactions_witness :
  decomposeMatrix scipy_lu scipy_inv no_reaction_matrix
  = Ok ({| ncols := 0; rows := [] |},
        {| index := ["A"; "B"]; columns := []; values := [[]; []] |}).
Proof.
  apply (reduction_without_reactions scipy_lu scipy_inv no_reaction_matrix).
  - reflexivity.
  - exists {| ncols := 0; rows := [] |}, {| ncols := 2; rows := [] |},
      {| ncols := 0; rows := [] |}.
    repeat split; vm_compute; reflexivity.
Defined.

(** With more reactions than molecules the upper factor has fewer rows
    than there are row labels for it: no reduced matrix is returned. *)
Lemma more_reactions_than_molecules_raises lu inv (mat : DataFrame) :
  lu_contract lu → inv_contract inv →
  length (index mat) < length (columns mat) →
  ∃ e, decomposeMatrix lu inv mat = Raise e.
Proof.
  intros Hlu Hinv Hlt.
  destruct (decomposeMatrix lu inv mat) as [[L R]|e] eqn:HR; [|by exists e].
  exfalso.
  apply decomposeMatrix_Ok in HR
    as (P & U & p_inv & pivot_index & new_idx & HP & Hp_inv & Hpiv & Hidx
        & HU & HUc & ->).
  destruct (Hlu _ _ _ _ HP) as (HPr & HUr & _).
  pose proof (Hinv _ _ Hp_inv) as Hpr.
  apply mapM_result_length in Hpiv, Hidx.
  unfold to_numpy, transpose in HPr, HUr. cbn in HPr, HUr.
  rewrite length_fmap, length_seq in HPr, HUr. lia.
Qed.

(** The reduced matrix has as many columns as the upper factor has rows. *)
Lemma reduced_columns_count lu inv (mat : DataFrame) (L : ndarray) (R : DataFrame) :
  upper_factor_contract lu →
  decomposeMatrix lu inv mat = Ok (L, R) →
  length (columns R) = min (length (columns mat)) (length (index mat)).
Proof.
  intros Hlu HR.
  apply decomposeMatrix_Ok in HR
    as (P & U & p_inv & pivot_index & new_idx & HP & _ & _ & _ & HU & _ & ->).
  apply Hlu in HP. unfold to_numpy, transpose in HP.
  cbn [rows ncols values columns index] in HP.
  rewrite length_fmap, length_seq in HP. cbn [transpose columns index]. lia.
Qed.

(** C4, refuted as stated: for the matrix without molecules and with the
    one reaction R1, no factorisation whose upper factor has min(M, N) rows
    and no inversion make the reducer return a matrix of the input's shape:
    whether the library raises on the empty array or returns factors
    without rows, the reducer raises or returns a matrix that has lost the
    column R1. *)
Lemma no_molecule_matrix_not_reduced :
  index no_molecule_matrix = []
  ∧ columns no_molecule_matrix = ["R1"]
  ∧ ¬ ∃ lu inv L R,
        upper_factor_contract lu
        ∧ decomposeMatrix lu inv no_molecule_matrix = Ok (L, R)
        ∧ length (columns R) = length (columns no_molecule_matrix).
Proof.
  split; [reflexivity|]. split; [reflexivity|].
  intros (lu & inv & L & R & Hlu & HR & Hlen).
  apply (reduced_columns_count lu inv _ L R Hlu) in HR.
  rewrite HR in Hlen. discriminate.
Qed.

(** ** Matrix-to-reaction converter *)

(** The name the converter calls is not bound at module level. *)
Lemma getReactionSummaryCategory_unbound :
  lookup_global module_globals "getReactionSummaryCategory"
  = Raise (NameError "getReactionSummaryCategory").
Proof. reflexivity. Qed.

(** Whatever the lookups and the cells, the first column already ends in an
    exception: the converter returns no list for a matrix with a column. *)
Lemma convertMatrixToReactions_raises (simple : SimpleSBML) (mat_df : DataFrame) :
  columns mat_df ≠ [] → ∃ e, convertMatrixToReactions simple mat_df = Raise e.
Proof.
  unfold convertMatrixToReactions, convert_in.
  destruct (columns mat_df) as [|c cs]; [done|]. intros _. cbn [mapM].
  destruct (getReaction simple c) as [r|e]; cbn; [|by eexists].
  destruct (getitem_column mat_df c) as [sel|e]; cbn; [|by eexists].
  destruct (select_molecules simple sel _ Qabs _) as [rs|e]; cbn; [|by eexists].
  destruct (select_molecules simple sel _ id _) as [ps|e]; cbn; [|by eexists].
  by eexists.
Qed.

(** With unique labels and lookups that succeed the exception is the
    [NameError] of the unqualified call. *)
Lemma convertMatrixToReactions_NameError (simple : SimpleSBML) (mat_df : DataFrame)
    (c : string) (cs : list string) reaction sel reactants products :
  columns mat_df = c :: cs →
  getReaction simple c = Ok reaction →
  getitem_column mat_df c = Ok sel →
  select_molecules simple sel (λ v, Qlt_bool v 0) Qabs (sel_index sel) = Ok reactants →
  select_molecules simple sel (λ v, Qlt_bool 0 v) id (sel_index sel) = Ok products →
  convertMatrixToReactions simple mat_df
  = Raise (NameError "getReactionSummaryCategory").
Proof.
  intros Hc Hr Hsel Hre Hpr. unfold convertMatrixToReactions, convert_in.
  rewrite Hc. cbn [mapM]. rewrite Hr. cbn [mbind result_bind].
  rewrite Hsel. cbn [mbind result_bind]. rewrite Hre. cbn [mbind result_bind].
  rewrite Hpr. reflexivity.
Qed.

(** Had the call reached the classifier, every summary would carry its
    column's label and the category of its own reactant and product lists. *)
Lemma convertMatrixToReactions_resolved_category (simple : SimpleSBML)
    (mat_df : DataFrame) (summaries : list ReactionSummary) :
  convertMatrixToReactions_resolved simple mat_df = Ok summaries →
  rs_label <$> summaries = columns mat_df
  ∧ Forall (λ s, getReactionSummaryCategory (rs_reactants s) (rs_products s)
                 = Ok (rs_category s)) summaries.
Proof.
  unfold convertMatrixToReactions_resolved, convert_in.
  generalize (columns mat_df) as cols. intros cols H.
  apply mapM_result_Forall2 in H.
  induction H as [|c s cs ss Hcs _ IH]; [done|].
  destruct IH as [IHl IHc].
  destruct (getReaction simple c) as [r|e]; cbn [mbind result_bind call mret result_ret] in Hcs; [|done].
  destruct (getitem_column mat_df c) as [sel|e]; cbn [mbind result_bind call mret result_ret] in Hcs; [|done].
  destruct (select_molecules simple sel _ Qabs _) as [rs|e]; cbn [mbind result_bind call mret result_ret] in Hcs; [|done].
  destruct (select_molecules simple sel _ id _) as [ps|e]; cbn [mbind result_bind call mret result_ret] in Hcs; [|done].
  change (lookup_global _ _) with (Ok (PyFunction getReactionSummaryCategory)) in Hcs.
  cbn [mbind result_bind call mret result_ret] in Hcs.
  destruct (getReactionSummaryCategory rs ps) as [cat|e] eqn:Hcat; cbn [mbind result_bind call mret result_ret] in Hcs;
    [|done].
  injection Hcs as <-. cbn. rewrite IHl. split; [done|]. by constructor.
Qed.

(** The comprehension over a Series keeps, in row order, the rows whose
    cell passes the test. *)
Lemma select_molecules_Series (simple : SimpleSBML) (idx : list string)
    (vals : list Q) (keep : Q → bool) (coef : Q → Q) (ms : list string)
    (mol : string → Molecule) (val : string → Q) :
  (∀ m, m ∈ ms → getMolecule simple m = Ok (mol m)) →
  (∀ m, m ∈ ms → sel_getitem (Sel_Series idx vals) m = Ok (val m)) →
  select_molecules simple (Sel_Series idx vals) keep coef ms
  = Ok ((λ m, {| molecule := mol m; stoichiometry := coef (val m) |})
          <$> filter (λ m, keep (val m) = true) ms).
Proof.
  induction ms as [|m ms IH]; intros Hmol Hval; [done|].
  cbn [select_molecules]. rewrite (Hval m) by left. cbn [mbind result_bind].
  rewrite filter_cons.
  rewrite IH by (intros; (apply Hmol || apply Hval); by right).
  destruct (keep (val m)) eqn:Hk.
  - rewrite (Hmol m) by left. cbn. rewrite decide_True by done. done.
  - rewrite decide_False by done. done.
Qed.

(** C1, the defect at an input: the matrix of R1: A -> B and R2: 2A -> C,
    with every name known to the model, is not converted; the unqualified
    call of the classifier raises [NameError]. *)
Theorem convertMatrixToReactions_example_NameError :
  convertMatrixToReactions (example_model [R1_A_to_B; R2_2A_to_C]) example_matrix
  = Raise (NameError "getReactionSummaryCategory").
Proof. reflexivity. Qed.

(** The same input through the body with the classifier in scope. *)
Example convertMatrixToReactions_resolved_example :
  convertMatrixToReactions_resolved (example_model [R1_A_to_B; R2_2A_to_C])
    example_matrix
  = Ok [ {| rs_label := "R1"; rs_reactants := [mk "A" 1]; rs_products := [mk "B" 1];
            rs_category := REACTION_1_1 |};
         {| rs_label := "R2"; rs_reactants := [mk "A" 2]; rs_products := [mk "C" 1];
            rs_category := REACTION_n_1 |} ].
Proof. reflexivity. Qed.

(** C8, the defect at an input: a one-column matrix with a negative, a zero
    and a positive cell yields no summary at all; the converter raises
    [NameError] after having split the column. *)
Theorem convertMatrixToReactions_signs_NameError :
  convertMatrixToReactions (example_model [R1_A_to_B])
    {| index := ["A"; "B"; "C"]; columns := ["R1"];
       values := [[-1]; [1]; [0]]%Q |}
  = Raise (NameError "getReactionSummaryCategory").
Proof. reflexivity. Qed.

(** * Further properties *)

(** ** Reaction classifier *)

Lemma pysum_from (a : Q) (l : list Q) : (foldl Qplus a l == a + pysum l)%Q.
Proof.
  unfold pysum. revert a. induction l as [|x l IH]; intros a; cbn.
  - ring.
  - rewrite IH, (IH (0 + x)%Q). ring.
Qed.

Lemma pysum_cons (x : Q) (l : list Q) : (pysum (x :: l) == x + pysum l)%Q.
Proof. unfold pysum at 1. cbn. rewrite pysum_from. ring. Qed.

Lemma pysum_Permutation (l k : list Q) : l ≡ₚ k → (pysum l == pysum k)%Q.
Proof.
  induction 1 as [|x l k _ IH|x y l|l k j _ IH1 _ IH2].
  - reflexivity.
  - by rewrite !pysum_cons, IH.
  - rewrite !pysum_cons. ring.
  - by rewrite IH1.
Qed.

Lemma Qeq_bool_proper (a a' b b' : Q) :
  (a == a')%Q → (b == b')%Q → Qeq_bool a b = Qeq_bool a' b'.
Proof.
  intros Ha Hb. destruct (Qeq_bool a' b') eqn:E.
  - apply Qeq_bool_iff. apply Qeq_bool_iff in E. by rewrite Ha, Hb.
  - apply not_true_is_false. intros E'. apply Qeq_bool_iff in E'.
    rewrite Ha, Hb in E'. apply Qeq_bool_iff in E'. congruence.
Qed.

Lemma forallb_Permutation {A} (f : A → bool) (l k : list A) :
  l ≡ₚ k → forallb f l = forallb f k.
Proof.
  induction 1 as [|x l k _ IH|x y l|l k j _ IH1 _ IH2]; cbn.
  - done.
  - by rewrite IH.
  - by destruct (f x), (f y).
  - by rewrite IH1.
Qed.

Lemma Qle_bool_false (a b : Q) : Qle_bool a b = false ↔ (b < a)%Q.
Proof.
  split.
  - intros H. apply Qnot_le_lt. intros Hle. apply Qle_bool_iff in Hle. congruence.
  - intros H. apply not_true_is_false. intros Hle. apply Qle_bool_iff in Hle.
    by apply Qlt_not_le in H.
Qed.

(** X1: with exactly one real reactant and one real product the category
    is decided by comparing the two coefficients: one-to-one when they are
    equal, one-to-many when the product's is larger, many-to-one when the
    reactant's is larger (never many-to-many, error or redundant). *)
Theorem single_pair_trichotomy
    (reactants products : list MoleculeStoichiometry) (r0 p0 : Q) :
  stoichiometry <$> real_entries reactants = [r0] →
  stoichiometry <$> real_entries products = [p0] →
  ((r0 == p0)%Q → getReactionSummaryCategory reactants products = Ok REACTION_1_1)
  ∧ ((r0 < p0)%Q → getReactionSummaryCategory reactants products = Ok REACTION_1_n)
  ∧ ((p0 < r0)%Q → getReactionSummaryCategory reactants products = Ok REACTION_n_1).
Proof.
  intros Hr Hp.
  rewrite getReactionSummaryCategory_classify, Hr, Hp. cbn [classify length].
  rewrite (Qeq_bool_proper _ r0 _ p0) by apply pysum_singleton.
  cbn [bool_decide decide_rel andb forallb]. rewrite !andb_true_r.
  repeat split.
  - intros Heq. apply Qeq_bool_iff in Heq. by rewrite Heq.
  - intros Hlt. assert (Qeq_bool r0 p0 = false) as ->.
    { apply not_true_is_false. intros E. apply Qeq_bool_iff in E.
      rewrite E in Hlt. by apply Qlt_irrefl in Hlt. }
    apply Qlt_le_weak, Qle_bool_iff in Hlt. by rewrite Hlt.
  - intros Hlt. assert (Qeq_bool r0 p0 = false) as ->.
    { apply not_true_is_false. intros E. apply Qeq_bool_iff in E.
      rewrite E in Hlt. by apply Qlt_irrefl in Hlt. }
    rewrite (proj2 (Qle_bool_false r0 p0) Hlt).
    apply Qlt_le_weak, Qle_bool_iff in Hlt. by rewrite Hlt.
Qed.

Lemma single_pair_trichotomy_witness :
  getReactionSummaryCategory [mk "A" 2] [mk "C" 1] = Ok REACTION_n_1.
Proof.
  destruct (single_pair_trichotomy [mk "A" 2] [mk "C" 1] 2 1) as (_ & _ & H).
  - reflexivity.
  - reflexivity.
  - apply H. reflexivity.
Defined.

Lemma classify_swap (r p : list Q) :
  classify p r = swap_category (classify r p).
Proof.
  destruct r as [|r0 r'], p as [|p0 p']; try reflexivity.
  cbn [classify].
  rewrite (andb_comm (bool_decide (length (p0 :: p') = 1))).
  assert (Qeq_bool (pysum (p0 :: p')) (pysum (r0 :: r'))
          = Qeq_bool (pysum (r0 :: r')) (pysum (p0 :: p'))) as ->.
  { destruct (Qeq_bool (pysum (r0 :: r')) _) eqn:E.
    - apply Qeq_bool_iff. apply Qeq_bool_iff in E. by symmetry.
    - apply not_true_is_false. intros E'. apply Qeq_bool_iff in E'.
      symmetry in E'. apply Qeq_bool_iff in E'. congruence. }
  destruct (bool_decide (length (r0 :: r') = 1)) eqn:A;
    destruct (bool_decide (length (p0 :: p') = 1)) eqn:B;
    cbn [andb]; try by repeat match goal with
                       | |- context [if ?b then _ else _] => destruct b
                       end.
  apply bool_decide_eq_true in A, B.
  destruct r' as [|? ?]; [|done]. destruct p' as [|? ?]; [|done].
  rewrite (Qeq_bool_proper _ r0 _ p0) by apply pysum_singleton.
  cbn [forallb]. rewrite !andb_true_r.
  destruct (Qeq_bool r0 p0) eqn:E; [done|].
  destruct (Qle_bool r0 p0) eqn:F, (Qle_bool p0 r0) eqn:G; try done.
  exfalso. apply Qle_bool_iff in F, G.
  assert (r0 == p0)%Q as Heq by by apply Qle_antisym.
  apply Qeq_bool_iff in Heq. congruence.
Qed.

(** X2: reversing a reaction (its products taken as reactants and its
    reactants as products) exchanges one-to-many and many-to-one and leaves
    every other category as it is. *)
Theorem classifier_reversal (reactants products : list MoleculeStoichiometry) :
  getReactionSummaryCategory products reactants
  = swap_category <$> getReactionSummaryCategory reactants products.
Proof.
  rewrite !getReactionSummaryCategory_classify. cbn. f_equal. apply classify_swap.
Qed.

Lemma classify_Permutation (r r' p p' : list Q) :
  r ≡ₚ r' → p ≡ₚ p' → classify r p = classify r' p'.
Proof.
  intros Hr Hp.
  destruct r as [|r0 r1].
  { apply Permutation_nil_l in Hr as <-.
    destruct p as [|p0 p1].
    - by apply Permutation_nil_l in Hp as <-.
    - destruct p' as [|p0' p1']; [|done].
      by apply Permutation_nil_r in Hp. }
  destruct r' as [|r0' r1']; [by apply Permutation_nil_r in Hr|].
  destruct p as [|p0 p1].
  { by apply Permutation_nil_l in Hp as <-. }
  destruct p' as [|p0' p1']; [by apply Permutation_nil_r in Hp|].
  cbn [classify].
  rewrite <- (Permutation_length Hr), <- (Permutation_length Hp).
  rewrite <- (Qeq_bool_proper _ _ _ _ (pysum_Permutation _ _ Hr)
               (pysum_Permutation _ _ Hp)).
  rewrite <- (forallb_Permutation (Qle_bool r0') _ _ Hp).
  rewrite <- (forallb_Permutation (Qle_bool p0') _ _ Hr).
  destruct (bool_decide (length (r0 :: r1) = 1)) eqn:A.
  - apply bool_decide_eq_true in A. destruct r1; [|done].
    apply Permutation_singleton_l in Hr. injection Hr as <- <-.
    destruct (bool_decide (length (p0 :: p1) = 1)) eqn:B; [|done].
    apply bool_decide_eq_true in B. destruct p1; [|done].
    apply Permutation_singleton_l in Hp. by injection Hp as <- <-.
  - destruct (bool_decide (length (p0 :: p1) = 1)) eqn:B; [|done].
    apply bool_decide_eq_true in B. destruct p1; [|done].
    apply Permutation_singleton_l in Hp. by injection Hp as <- <-.
Qed.

(** X3: the category does not depend on the order in which the reactants
    and the products are listed. *)
Theorem classifier_order_irrelevant
    (reactants reactants' products products' : list MoleculeStoichiometry) :
  reactants ≡ₚ reactants' → products ≡ₚ products' →
  getReactionSummaryCategory reactants products
  = getReactionSummaryCategory reactants' products'.
Proof.
  intros Hr Hp. rewrite !getReactionSummaryCategory_classify. f_equal.
  apply classify_Permutation; unfold real_entries; by rewrite ?Hr, ?Hp.
Qed.

Lemma classifier_order_irrelevant_witness :
  getReactionSummaryCategory [mk "A" 1] [mk "B" 1; mk "C" 2]
  = getReactionSummaryCategory [mk "A" 1] [mk "C" 2; mk "B" 1].
Proof.
  apply classifier_order_irrelevant.
  - reflexivity.
  - apply perm_swap.
Defined.

(** X4: called on their own, the one-to-many predicate raises exactly when
    it is told of one reactant (x = 1) while the reactant coefficient list
    is empty and the product list is not, and then with IndexError; the
    many-to-one predicate likewise with the two sides exchanged.  In every
    other case they return a boolean. *)
Theorem predicates_IndexError (x y : nat) (r p : list Q) :
  (∀ e, pred_1_n x y r p = Raise e ↔ e = IndexError ∧ x = 1 ∧ r = [] ∧ p ≠ [])
  ∧ (∀ e, pred_n_1 x y r p = Raise e ↔ e = IndexError ∧ y = 1 ∧ p = [] ∧ r ≠ []).
Proof.
  split; intros e.
  - destruct r as [|r0 r].
    + unfold pred_1_n. case_bool_decide as Hx.
      * destruct p as [|p0 p]; cbn; [split; [done|by intros (_ & _ & _ & ?)]|].
        split; [by intros [= <-]|by intros (-> & _)].
      * split; [done|by intros (_ & ? & _)].
    + rewrite pred_1_n_cons. split; [done|by intros (_ & _ & ? & _)].
  - destruct p as [|p0 p].
    + unfold pred_n_1. case_bool_decide as Hy.
      * destruct r as [|r0 r]; cbn; [split; [done|by intros (_ & _ & _ & ?)]|].
        split; [by intros [= <-]|by intros (-> & _)].
      * split; [done|by intros (_ & ? & _)].
    + rewrite pred_n_1_cons. split; [done|by intros (_ & _ & ? & _)].
Qed.

(** X5: the predicates overlap.  Whenever the one-to-one predicate holds
    for counts that are the lengths of the coefficient lists, the
    one-to-many and the many-to-one predicates hold too; only its earlier
    place in the list makes such a reaction one-to-one. *)
Theorem one_to_one_matches_later_predicates (r p : list Q) :
  pred_1_1 (length r) (length p) r p = Ok true →
  pred_1_n (length r) (length p) r p = Ok true
  ∧ pred_n_1 (length r) (length p) r p = Ok true.
Proof.
  unfold pred_1_1. intros [= H].
  apply andb_true_iff in H as [H HE]. apply andb_true_iff in H as [Hx Hy].
  apply bool_decide_eq_true in Hx, Hy.
  destruct r as [|r0 [|? ?]]; try done. destruct p as [|p0 [|? ?]]; try done.
  rewrite (Qeq_bool_proper _ r0 _ p0) in HE by apply pysum_singleton.
  apply Qeq_bool_iff in HE.
  rewrite pred_1_n_cons, pred_n_1_cons. cbn.
  assert (Qle_bool r0 p0 = true) as ->.
  { apply Qle_bool_iff. rewrite HE. apply Qle_refl. }
  assert (Qle_bool p0 r0 = true) as ->.
  { apply Qle_bool_iff. rewrite HE. apply Qle_refl. }
  done.
Qed.

Lemma one_to_one_matches_later_predicates_witness :
  pred_1_n 1 1 [2%Q] [2%Q] = Ok true ∧ pred_n_1 1 1 [2%Q] [2%Q] = Ok true.
Proof.
  apply (one_to_one_matches_later_predicates [2%Q] [2%Q]). reflexivity.
Defined.

(** ** Stoichiometry matrix builder *)

Lemma positions_from_head (i : nat) (l : list string) (x : string) :
  x ∈ l → ∃ j, head (positions_from i l x) = Some (i + j) ∧ j < length l.
Proof.
  revert i. induction l as [|y l IH]; intros i Hx; [by inversion Hx|].
  cbn. case_decide as Hyx.
  - exists 0. cbn. split; [f_equal; lia|lia].
  - apply elem_of_cons in Hx as [->|Hx]; [done|].
    destruct (IH (S i) Hx) as (j & Hj & Hlt).
    exists (S j). rewrite Hj. split; [f_equal; lia|lia].
Qed.

Lemma well_shaped_cell (df : DataFrame) (m c : string) :
  well_shaped df → m ∈ index df → c ∈ columns df → is_Some (cell df m c).
Proof.
  intros [Hlen Hrows] Hm Hc. unfold cell, positions.
  destruct (positions_from_head 0 _ _ Hm) as (i & -> & Hi).
  destruct (positions_from_head 0 _ _ Hc) as (j & -> & Hj). cbn.
  destruct (values df !! i) as [row|] eqn:Hrow.
  - cbn. apply lookup_lt_is_Some.
    eapply Forall_forall in Hrows; [|by eapply list_elem_of_lookup_2].
    by rewrite Hrows.
  - apply lookup_ge_None in Hrow. lia.
Qed.

(** X6: the builder returns a dense matrix whatever it is given (repeated
    labels, molecules of a reaction missing from the molecule list, an
    empty list): one row of values per listed molecule, one value per
    reaction in each row, and a cell for every listed molecule and
    reaction label. *)
Theorem stoichiometry_matrix_dense
    (reactions : list Reaction) (molecules : list string) :
  ∃ M, getStoichiometryMatrix reactions molecules = Ok M
       ∧ length (values M) = length molecules
       ∧ Forall (λ row, length row = length reactions) (values M)
       ∧ ∀ m r, m ∈ molecules → r ∈ reactions → is_Some (cell M m (label r)).
Proof.
  eexists. split; [apply getStoichiometryMatrix_writes|].
  set (M := foldl _ _ _).
  assert (well_shaped M) as HM.
  { apply foldl_apply_write_well_shaped, DataFrame_full_well_shaped. }
  destruct (foldl_apply_write_axes (reactions ≫= reaction_writes)
              (DataFrame_full 0%Q molecules (label <$> reactions))) as [Hi Hc].
  fold M in Hi, Hc. cbn in Hi, Hc.
  destruct HM as [Hlen Hrows]. rewrite Hi in Hlen. rewrite Hc, length_fmap in Hrows.
  repeat split; try done.
  intros m r Hm Hr. apply well_shaped_cell.
  - split; [by rewrite Hi|by rewrite Hc, length_fmap].
  - by rewrite Hi.
  - rewrite Hc. apply list_elem_of_fmap. by exists r.
Qed.

(** The cell of a listed molecule and a reaction, labels being distinct. *)
Lemma getStoichiometryMatrix_cell (reactions : list Reaction)
    (molecules : list string) (M : DataFrame) (r : Reaction) (m : string) :
  NoDup (label <$> reactions) → NoDup molecules →
  r ∈ reactions → m ∈ molecules →
  getStoichiometryMatrix reactions molecules = Ok M →
  cell M m (label r) = Some (net_stoichiometry r m).
Proof.
  intros Hlabels Hmols Hr Hm. rewrite getStoichiometryMatrix_writes.
  intros [= <-].
  set (df0 := DataFrame_full 0%Q molecules (label <$> reactions)).
  assert (well_shaped df0 ∧ NoDup (index df0) ∧ NoDup (columns df0)
          ∧ m ∈ index df0 ∧ label r ∈ columns df0) as Hinv.
  { split; [apply DataFrame_full_well_shaped|]. cbn.
    repeat split; try done. apply list_elem_of_fmap. by exists r. }
  assert (∀ w, w ∈ (reactions ≫= reaction_writes) →
               w.1.1 = label r ∧ w.1.2 = m →
               m ∈ reaction_molecules r ∧ w.2 = net_stoichiometry r m) as Hw.
  { intros w Hw [Hwc Hwm].
    apply elem_of_writes in Hw as (r' & Hr' & Hmw & Hw).
    assert (r' = r) as ->.
    { apply (NoDup_label_inj reactions); [done..|]. rewrite Hw in Hwc. done. }
    rewrite Hwm in Hmw. split; [done|]. rewrite Hw. cbn. by rewrite Hwm. }
  destruct (decide (m ∈ reaction_molecules r)) as [Hin|Hout].
  - apply foldl_writes_cell; [done| |].
    + apply Forall_forall. intros w Hin' Ht. by apply Hw.
    + apply Exists_exists. exists (label r, m, net_stoichiometry r m).
      split; [|done]. apply elem_of_writes. by exists r.
  - rewrite foldl_writes_untouched; [|done|].
    + unfold df0. rewrite DataFrame_full_cell;
        [|done..|apply list_elem_of_fmap; by exists r].
      apply not_elem_of_reaction_molecules in Hout as [Hre Hpr].
      unfold net_stoichiometry, dict_get.
      by rewrite (proj2 (stoichiometry_dict_None _ _) Hre),
        (proj2 (stoichiometry_dict_None _ _) Hpr).
    + apply Forall_forall. intros w Hin' Ht. apply Hout. by apply (Hw w).
Qed.

Lemma stoichiometry_dict_snoc (l : list MoleculeStoichiometry) e :
  stoichiometry_dict (l ++ [e])
  = <[name (molecule e) := stoichiometry e]> (stoichiometry_dict l).
Proof. unfold stoichiometry_dict. by rewrite foldl_app. Qed.

(** The dict built from a list gives, for a name, the coefficient of the
    last entry of that name. *)
Lemma stoichiometry_dict_last (l : list MoleculeStoichiometry) (m : string) :
  dict_get (stoichiometry_dict l) m = last_coefficient l m.
Proof.
  unfold dict_get, last_coefficient. f_equal.
  induction l as [|e l IH] using rev_ind; [done|].
  rewrite stoichiometry_dict_snoc, filter_app.
  destruct (decide (name (molecule e) = m)) as [<-|Hne].
  - rewrite lookup_insert_eq, filter_cons, decide_True by done.
    by rewrite filter_nil, last_snoc.
  - rewrite lookup_insert_ne by done.
    by rewrite filter_cons, decide_False, filter_nil, app_nil_r.
Qed.

(** X7: repeated entries are not added up.  With distinct labels, the cell
    of molecule [m] and reaction [r] is the coefficient of the last product
    entry naming [m] minus the coefficient of the last reactant entry naming
    [m] (0 for a side that does not name [m]); earlier entries for the same
    molecule on the same side do not count. *)
Theorem repeated_entries_last_wins (reactions : list Reaction)
    (molecules : list string) (M : DataFrame) (r : Reaction) (m : string) :
  NoDup (label <$> reactions) → NoDup molecules →
  r ∈ reactions → m ∈ molecules →
  getStoichiometryMatrix reactions molecules = Ok M →
  cell M m (label r)
  = Some (last_coefficient (products r) m - last_coefficient (reactants r) m)%Q.
Proof.
  intros Hl Hm Hr Hmm HM.
  rewrite (getStoichiometryMatrix_cell reactions molecules M r m) by done.
  unfold net_stoichiometry. by rewrite !stoichiometry_dict_last.
Qed.

Lemma repeated_entries_last_wins_witness :
  ∃ M, getStoichiometryMatrix [R3_A_A_to_B] ["A"; "B"] = Ok M
       ∧ cell M "A" "R3" = Some (0 - 2)%Q.
Proof.
  destruct (getStoichiometryMatrix [R3_A_A_to_B] ["A"; "B"]) as [M|e] eqn:HM;
    [|vm_compute in HM; discriminate].
  exists M. split; [reflexivity|].
  apply (repeated_entries_last_wins [R3_A_A_to_B] ["A"; "B"] M R3_A_A_to_B "A").
  - apply (bool_decide_unpack _). vm_compute. exact I.
  - apply (bool_decide_unpack _). vm_compute. exact I.
  - left.
  - left.
  - exact HM.
Defined.

(** X8: reversing a reaction negates its column.  When the list holds a
    reaction and its reverse (reactants and products exchanged) under
    distinct labels, their cells for any listed molecule are opposite. *)
Theorem reversed_reaction_negates_column (reactions : list Reaction)
    (molecules : list string) (M : DataFrame) (r r' : Reaction) (m : string) :
  NoDup (label <$> reactions) → NoDup molecules →
  r ∈ reactions → r' ∈ reactions → m ∈ molecules →
  reactants r' = products r → products r' = reactants r →
  getStoichiometryMatrix reactions molecules = Ok M →
  ∃ v v', cell M m (label r) = Some v ∧ cell M m (label r') = Some v'
          ∧ (v' == - v)%Q.
Proof.
  intros Hl Hm Hr Hr' Hmm Hre Hpr HM.
  exists (net_stoichiometry r m), (net_stoichiometry r' m).
  split; [by apply (getStoichiometryMatrix_cell reactions molecules)|].
  split; [by apply (getStoichiometryMatrix_cell reactions molecules)|].
  unfold net_stoichiometry. rewrite Hre, Hpr. ring.
Qed.

Lemma reversed_reaction_negates_column_witness :
  ∃ M v v', getStoichiometryMatrix [R1_A_to_B; R4_B_to_A] ["A"; "B"] = Ok M
            ∧ cell M "A" "R1" = Some v ∧ cell M "A" "R4" = Some v'
            ∧ (v' == - v)%Q.
Proof.
  destruct (getStoichiometryMatrix [R1_A_to_B; R4_B_to_A] ["A"; "B"])
    as [M|e] eqn:HM; [|vm_compute in HM; discriminate].
  destruct (reversed_reaction_negates_column [R1_A_to_B; R4_B_to_A] ["A"; "B"]
              M R1_A_to_B R4_B_to_A "A") as (v & v' & H).
  - apply (bool_decide_unpack _). vm_compute. exact I.
  - apply (bool_decide_unpack _). vm_compute. exact I.
  - left.
  - right. left.
  - left.
  - reflexivity.
  - reflexivity.
  - exact HM.
  - exists M, v, v'. split; [reflexivity|exact H].
Defined.

(** ** Message construction *)

(** X9: construction and builder fit together.  A Message is built for
    every model, and when the non-boundary reactions have distinct labels
    its matrix holds, for every non-boundary reaction and every molecule
    that reaction names as reactant or product, the net coefficient of the
    molecule in the reaction: no molecule of a non-boundary reaction lacks
    a row. *)
Theorem message_matrix_cells (simple : SimpleSBML) :
  NoDup (label <$> _getNonBoundaryReactions simple) →
  ∃ msg, Message_init simple = Ok msg
    ∧ ∀ r m, r ∈ sbml_reactions simple → category r ≠ REACTION_BOUNDARY →
             m ∈ names (reactants r) ∨ m ∈ names (products r) →
             cell (stoichiometry_matrix msg) m (label r)
             = Some (net_stoichiometry r m).
Proof.
  intros Hnd. unfold Message_init.
  destruct (getStoichiometryMatrix (_getNonBoundaryReactions simple)
              (_getNonBoundaryMolecules simple (_getNonBoundaryReactions simple)))
    as [M|e] eqn:HM.
  2: { by rewrite getStoichiometryMatrix_writes in HM. }
  eexists. split; [reflexivity|]. cbn [stoichiometry_matrix].
  intros r m Hr Hnb Hm.
  assert (r ∈ _getNonBoundaryReactions simple) as Hr'.
  { by apply list_elem_of_filter. }
  apply (getStoichiometryMatrix_cell (_getNonBoundaryReactions simple)
           (_getNonBoundaryMolecules simple (_getNonBoundaryReactions simple))
           M r m Hnd); [|done| |done].
  - apply NoDup_elements.
  - apply elem_of_getNonBoundaryMolecules. by exists r.
Qed.

Lemma message_matrix_cells_witness :
  ∃ msg, Message_init (example_model [R1_A_to_B; RB_to_X; R2_2A_to_C]) = Ok msg
    ∧ cell (stoichiometry_matrix msg) "A" "R2" = Some (0 - 2)%Q.
Proof.
  destruct (message_matrix_cells (example_model [R1_A_to_B; RB_to_X; R2_2A_to_C]))
    as (msg & Hmsg & Hcells).
  - apply (bool_decide_unpack _). vm_compute. exact I.
  - exists msg. split; [exact Hmsg|].
    apply (Hcells R2_2A_to_C "A").
    + right. right. left.
    + discriminate.
    + left. left.
Defined.

(** ** Matrix reducer *)

(** X10: with library routines that keep their shape contract, the reducer
    returns a reduced matrix only for an input with at most as many
    reactions (columns) as molecules (rows); with more reactions than
    molecules it raises. *)
Theorem reduction_needs_enough_molecules lu inv (mat : DataFrame)
    (L : ndarray) (R : DataFrame) :
  lu_contract lu → inv_contract inv →
  decomposeMatrix lu inv mat = Ok (L, R) →
  length (columns mat) ≤ length (index mat).
Proof.
  intros Hlu Hinv HR.
  destruct (decide (length (columns mat) ≤ length (index mat))) as [|Hgt]; [done|].
  destruct (more_reactions_than_molecules_raises lu inv mat Hlu Hinv) as [e He];
    [lia|congruence].
Qed.

Lemma reduction_needs_enough_molecules_witness :
  length (columns example_matrix) ≤ length (index example_matrix).
Proof.
  apply (reduction_needs_enough_molecules scipy_lu scipy_inv example_matrix
           example_L example_reduced scipy_lu_contract scipy_inv_contract).
  vm_compute. reflexivity.
Defined.

Lemma list_index_unit_row (n s : nat) :
  s < n → list_index (unit_row n s) 1%Q = Ok s.
Proof.
  unfold unit_row. intros Hs.
  assert (∀ i, i ≤ s → s < i + (n - i) →
    list_index ((λ j, if decide (j = s) then 1%Q else 0%Q) <$> seq i (n - i)) 1%Q
    = Ok (s - i)) as Hgen.
  { intros i. remember (n - i) as k eqn:Hk. revert i Hk.
    induction k as [|k IH]; intros i Hk Hi Hlt; [lia|].
    cbn. case_decide as Hd.
    - subst i. cbn. by rewrite Nat.sub_diag.
    - cbn. rewrite (IH (S i)) by lia. cbn. f_equal. lia. }
  specialize (Hgen 0). rewrite !Nat.sub_0_r in Hgen. apply Hgen; lia.
Qed.

(** X11: the new column labels follow the inverse permutation factor.
    When its rows are the unit rows with their 1 at the positions [σ], the
    reduced matrix's column i carries the input's column label at position
    [σ i]; when it is the identity, the column labels are the input's, in
    the input's order. *)
Theorem reduced_columns_follow_permutation lu inv (mat : DataFrame)
    (P L U p_inv : ndarray) (R : DataFrame) (σ : list nat) :
  decomposeMatrix lu inv mat = Ok (L, R) →
  lu (to_numpy (transpose mat)) = Ok (P, L, U) →
  inv P = Ok p_inv →
  rows p_inv = unit_row (length (columns mat)) <$> σ →
  Forall (λ s, s < length (columns mat)) σ →
  Forall2 (λ s c, columns mat !! s = Some c) σ (columns R)
  ∧ (σ = seq 0 (length (columns mat)) → columns R = columns mat).
Proof.
  intros HR HP Hp_inv Hrows Hσ.
  apply decomposeMatrix_Ok in HR
    as (P' & U' & p_inv' & pivot_index & new_idx & HP' & Hp_inv' & Hpiv & Hidx
        & _ & _ & ->).
  rewrite HP in HP'. injection HP' as <- <-.
  rewrite Hp_inv in Hp_inv'. injection Hp_inv' as <-.
  rewrite Hrows in Hpiv.
  assert (pivot_index = σ) as ->.
  { assert (mapM (λ k, list_index k 1%Q) (unit_row (length (columns mat)) <$> σ)
            = Ok σ) as Hσ'.
    { clear -Hσ. induction Hσ as [|s σ Hs _ IH]; [done|].
      cbn. rewrite list_index_unit_row by done. cbn. by rewrite IH. }
    congruence. }
  cbn [transpose columns index].
  apply mapM_result_Forall2 in Hidx.
  assert (Forall2 (λ s c, columns mat !! s = Some c) σ new_idx) as Hcols.
  { eapply Forall2_impl; [exact Hidx|]. intros i c. apply getitem_Ok. }
  split; [done|]. intros ->.
  apply omap_lookup_Forall2 in Hcols. rewrite <- Hcols.
  exact (omap_lookup_seq [] (columns mat)).
Qed.

Lemma reduced_columns_follow_permutation_witness :
  Forall2 (λ s c, columns example_matrix !! s = Some c) [1; 0]
    (columns example_reduced).
Proof.
  apply (reduced_columns_follow_permutation scipy_lu scipy_inv example_matrix
           {| ncols := 2; rows := [[0; 1]; [1; 0]]%Q |} example_L
           {| ncols := 3; rows := [[-2; 0; 1]; [0; 1; -1 # 2]]%Q |}
           {| ncols := 2; rows := [[0; 1]; [1; 0]]%Q |}
           example_reduced [1; 0]).
  - vm_compute. reflexivity.
  - vm_compute. reflexivity.
  - vm_compute. reflexivity.
  - reflexivity.
  - repeat constructor.
Defined.

(** ** Matrix-to-reaction converter *)

Lemma convertMatrixToReactions_Ok_iff (simple : SimpleSBML)
    (mat_df : DataFrame) (summaries : list ReactionSummary) :
  convertMatrixToReactions simple mat_df = Ok summaries
  ↔ columns mat_df = [] ∧ summaries = [].
Proof.
  split.
  - intros H. destruct (columns mat_df) as [|c cs] eqn:Hc.
    + unfold convertMatrixToReactions, convert_in in H. rewrite Hc in H.
      cbn in H. by injection H as <-.
    + destruct (convertMatrixToReactions_raises simple mat_df) as [e He];
        [by rewrite Hc|congruence].
  - intros [Hc ->]. unfold convertMatrixToReactions, convert_in. by rewrite Hc.
Qed.

(** X12: the converter returns a list exactly for a matrix without
    columns, and then the empty list; for every matrix with a column it
    raises. *)
Theorem convertMatrixToReactions_returns_iff (simple : SimpleSBML)
    (mat_df : DataFrame) :
  (∀ summaries, convertMatrixToReactions simple mat_df = Ok summaries
                ↔ columns mat_df = [] ∧ summaries = [])
  ∧ ((∃ e, convertMatrixToReactions simple mat_df = Raise e)
     ↔ columns mat_df ≠ []).
Proof.
  split; [apply convertMatrixToReactions_Ok_iff|]. split.
  - intros [e He] Hc.
    assert (convertMatrixToReactions simple mat_df = Ok []) as Hok
      by by apply convertMatrixToReactions_Ok_iff.
    congruence.
  - apply convertMatrixToReactions_raises.
Qed.

Lemma filter_nil_Forall {A} (P : A → Prop) `{∀ x, Decision (P x)} (l : list A) :
  filter P l = [] ↔ Forall (λ x, ¬ P x) l.
Proof.
  induction l as [|a l IH]; [by split; [constructor|]|].
  rewrite filter_cons, Forall_cons. case_decide as Ha.
  - split; [done|]. by intros [? _].
  - rewrite IH. tauto.
Qed.

(** X13: construction followed by conversion.  For every model, a Message
    is built, and converting its stoichiometry matrix returns (the empty
    list) exactly when every reaction of the model is a boundary reaction;
    as soon as the model has one non-boundary reaction the conversion
    raises. *)
Theorem conversion_of_message_matrix (simple : SimpleSBML) :
  ∃ msg, Message_init simple = Ok msg
    ∧ (convertMatrixToReactions simple (stoichiometry_matrix msg) = Ok []
       ↔ Forall (λ r, category r = REACTION_BOUNDARY) (sbml_reactions simple))
    ∧ ((∃ e, convertMatrixToReactions simple (stoichiometry_matrix msg) = Raise e)
       ↔ Exists (λ r, category r ≠ REACTION_BOUNDARY) (sbml_reactions simple)).
Proof.
  unfold Message_init.
  destruct (getStoichiometryMatrix_axes (_getNonBoundaryReactions simple)
              (_getNonBoundaryMolecules simple (_getNonBoundaryReactions simple)))
    as (M & -> & _ & Hc).
  eexists. split; [reflexivity|]. cbn [stoichiometry_matrix].
  assert (columns M = [] ↔
          Forall (λ r, category r = REACTION_BOUNDARY) (sbml_reactions simple))
    as Hempty.
  { rewrite Hc. unfold _getNonBoundaryReactions. split.
    - intros Hnil. apply fmap_nil_inv, filter_nil_Forall in Hnil.
      eapply Forall_impl; [exact Hnil|]. intros r Hr. cbn in Hr.
      by destruct (decide (category r = REACTION_BOUNDARY)).
    - intros Hall.
      assert (filter (λ r, category r ≠ REACTION_BOUNDARY) (sbml_reactions simple)
              = []) as ->; [|done].
      apply filter_nil_Forall. eapply Forall_impl; [exact Hall|].
      intros r Hr Hnb. done. }
  split.
  - rewrite convertMatrixToReactions_Ok_iff, Hempty. tauto.
  - split.
    + intros [e He].
      destruct (decide (Exists (λ r, category r ≠ REACTION_BOUNDARY)
                          (sbml_reactions simple))) as [|Hnex]; [done|].
      apply (not_Exists_Forall _) in Hnex.
      assert (columns M = []) as Hcols.
      { apply Hempty. eapply Forall_impl; [exact Hnex|]. intros r Hr. cbn in Hr.
        by destruct (decide (category r = REACTION_BOUNDARY)). }
      assert (convertMatrixToReactions simple M = Ok []) as Hok
        by by apply convertMatrixToReactions_Ok_iff.
      congruence.
    + intros Hex. apply convertMatrixToReactions_raises. intros Hcols.
      apply Hempty in Hcols. apply Exists_exists in Hex as (r & Hr & Hnb).
      eapply Forall_forall in Hcols; [|exact Hr]. done.
Qed.

(** What a successful comprehension returns: each entry comes from a cell
    that passed the test and carries its transformed value. *)
Lemma select_molecules_entries (simple : SimpleSBML) (s : Selection)
    (keep : Q → bool) (coef : Q → Q) (ms : list string)
    (l : list MoleculeStoichiometry) :
  select_molecules simple s keep coef ms = Ok l →
  Forall (λ e, ∃ v, keep v = true ∧ stoichiometry e = coef v) l.
Proof.
  revert l. induction ms as [|m ms IH]; intros l; cbn.
  - intros [= <-]. constructor.
  - destruct (sel_getitem s m) as [v|e]; cbn; [|done].
    destruct (keep v) eqn:Hk; [|apply IH].
    destruct (getMolecule simple m) as [mol|e]; cbn; [|done].
    destruct (select_molecules simple s keep coef ms) as [rest|e]; cbn; [|done].
    intros [= <-]. constructor; [by exists v|by apply IH].
Qed.

(** X15: the coefficients the converter's two comprehensions produce are
    strictly positive, whatever the column and the lookups: a reactant
    carries the absolute value of a strictly negative cell, a product a
    strictly positive cell. *)
Theorem split_coefficients_positive (simple : SimpleSBML) (s : Selection)
    (ms : list string) (reactants products : list MoleculeStoichiometry) :
  select_molecules simple s (λ v, Qlt_bool v 0) Qabs ms = Ok reactants →
  select_molecules simple s (λ v, Qlt_bool 0 v) id ms = Ok products →
  Forall (λ e, (0 < stoichiometry e)%Q) reactants
  ∧ Forall (λ e, (0 < stoichiometry e)%Q) products.
Proof.
  intros Hr Hp. apply select_molecules_entries in Hr, Hp. split.
  - eapply Forall_impl; [exact Hr|]. intros e (v & Hv & ->). cbn in Hv.
    unfold Qlt_bool in Hv. apply negb_true_iff, Qle_bool_false in Hv.
    rewrite Qabs_neg by by apply Qlt_le_weak.
    apply Qopp_lt_compat in Hv. exact Hv.
  - eapply Forall_impl; [exact Hp|]. intros e (v & Hv & ->). cbn in Hv.
    unfold Qlt_bool in Hv. by apply negb_true_iff, Qle_bool_false in Hv.
Qed.

Lemma split_coefficients_positive_witness :
  Forall (λ e, (0 < stoichiometry e)%Q) [mk "A" 2]
  ∧ Forall (λ e, (0 < stoichiometry e)%Q) [mk "C" 1].
Proof.
  apply (split_coefficients_positive (example_model [R1_A_to_B; R2_2A_to_C])
           (Sel_Series ["A"; "B"; "C"] [-2; 0; 1]%Q) ["A"; "B"; "C"]).
  - reflexivity.
  - reflexivity.
Defined.

Lemma select_molecules_kept (simple : SimpleSBML) (s : Selection)
    (keep : Q → bool) (coef : Q → Q) (ms : list string)
    (mol : string → Molecule) (val : string → Q) :
  (∀ m, m ∈ ms → keep (val m) = true → getMolecule simple m = Ok (mol m)) →
  (∀ m, m ∈ ms → sel_getitem s m = Ok (val m)) →
  select_molecules simple s keep coef ms
  = Ok ((λ m, {| molecule := mol m; stoichiometry := coef (val m) |})
          <$> filter (λ m, keep (val m) = true) ms).
Proof.
  induction ms as [|m ms IH]; intros Hmol Hval; [done|].
  cbn [select_molecules]. rewrite (Hval m) by left. cbn [mbind result_bind].
  rewrite filter_cons.
  rewrite IH by (intros; (apply Hmol || apply Hval); (done || by right)).
  destruct (keep (val m)) eqn:Hk.
  - rewrite (Hmol m) by (done || left). cbn. rewrite decide_True by done. done.
  - rewrite decide_False by done. done.
Qed.

(** A column of a well-shaped frame with distinct labels, read row by row. *)
Lemma getitem_column_cells (df : DataFrame) (c : string) :
  well_shaped df → NoDup (index df) → NoDup (columns df) → c ∈ columns df →
  ∃ s, getitem_column df c = Ok s ∧ sel_index s = index df
       ∧ ∀ m, m ∈ index df → sel_getitem s m = Ok (cell_value df m c).
Proof.
  intros [Hlen Hrows] Hni Hnc Hc. unfold getitem_column.
  destruct (positions_NoDup _ _ Hnc Hc) as (j & Hpj & Hlj). rewrite Hpj.
  eexists. split; [reflexivity|]. split; [reflexivity|].
  intros m Hm. cbn.
  destruct (positions_NoDup _ _ Hni Hm) as (i & Hpi & Hli). rewrite Hpi.
  f_equal. unfold cell_value, cell. rewrite Hpi, Hpj. cbn.
  assert (is_Some (values df !! i)) as [row Hrow].
  { apply lookup_lt_is_Some. rewrite Hlen. by eapply lookup_lt_Some. }
  assert (length row = length (columns df)) as Hrl.
  { eapply Forall_forall in Hrows; [done|]. by eapply list_elem_of_lookup_2. }
  rewrite Hrow. cbn.
  assert (is_Some (row !! j)) as [v Hv].
  { apply lookup_lt_is_Some. rewrite Hrl. by eapply lookup_lt_Some. }
  rewrite Hv. cbn.
  rewrite (nth_lookup_Some _ i 0%Q (nth j row 0%Q)).
  - by apply nth_lookup_Some.
  - by rewrite list_lookup_fmap, Hrow.
Qed.

(** X14: the split of a column by sign.  In a well-shaped matrix with
    distinct row labels and distinct column labels, the reactants
    comprehension for a column yields, in row order, exactly the rows whose
    cell is strictly negative, each with the absolute value of its cell, and
    the products comprehension exactly the rows whose cell is strictly
    positive, each with its cell; a row whose cell is 0 is in neither, and
    its molecule is not even looked up. *)
Theorem column_split_by_sign (simple : SimpleSBML) (mat_df : DataFrame)
    (c : string) (mol : string → Molecule) :
  well_shaped mat_df → NoDup (index mat_df) → NoDup (columns mat_df) →
  c ∈ columns mat_df →
  (∀ m, m ∈ index mat_df → ¬ (cell_value mat_df m c == 0)%Q →
        getMolecule simple m = Ok (mol m)) →
  ∃ s, getitem_column mat_df c = Ok s
    ∧ select_molecules simple s (λ v, Qlt_bool v 0) Qabs (sel_index s)
      = Ok ((λ m, {| molecule := mol m;
                     stoichiometry := Qabs (cell_value mat_df m c) |})
              <$> filter (λ m, Qlt_bool (cell_value mat_df m c) 0 = true)
                    (index mat_df))
    ∧ select_molecules simple s (λ v, Qlt_bool 0 v) id (sel_index s)
      = Ok ((λ m, {| molecule := mol m;
                     stoichiometry := cell_value mat_df m c |})
              <$> filter (λ m, Qlt_bool 0 (cell_value mat_df m c) = true)
                    (index mat_df)).
Proof.
  intros Hws Hni Hnc Hc Hmol.
  destruct (getitem_column_cells mat_df c Hws Hni Hnc Hc) as (s & Hs & Hidx & Hval).
  exists s. split; [done|]. rewrite Hidx. split.
  - apply (select_molecules_kept simple s (λ v, Qlt_bool v 0) Qabs
             (index mat_df) mol (λ m, cell_value mat_df m c)); [|done].
    intros m Hm Hk. apply Hmol; [done|]. intros H0.
    unfold Qlt_bool in Hk. apply negb_true_iff, Qle_bool_false in Hk.
    rewrite H0 in Hk. by apply Qlt_irrefl in Hk.
  - apply (select_molecules_kept simple s (λ v, Qlt_bool 0 v) id
             (index mat_df) mol (λ m, cell_value mat_df m c)); [|done].
    intros m Hm Hk. apply Hmol; [done|]. intros H0.
    unfold Qlt_bool in Hk. apply negb_true_iff, Qle_bool_false in Hk.
    rewrite H0 in Hk. by apply Qlt_irrefl in Hk.
Qed.

Lemma column_split_by_sign_witness :
  ∃ s, getitem_column example_reduced "R1" = Ok s
    ∧ select_molecules (example_model [R1_A_to_B; R2_2A_to_C]) s
        (λ v, Qlt_bool v 0) Qabs (sel_index s) = Ok [mk "C" (1 # 2)]
    ∧ select_molecules (example_model [R1_A_to_B; R2_2A_to_C]) s
        (λ v, Qlt_bool 0 v) id (sel_index s) = Ok [mk "B" 1].
Proof.
  destruct (column_split_by_sign (example_model [R1_A_to_B; R2_2A_to_C])
              example_reduced "R1" (λ n, {| name := n |}))
    as (s & Hs & Hr & Hp).
  - split; [reflexivity|]. repeat constructor.
  - apply (bool_decide_unpack _). vm_compute. exact I.
  - apply (bool_decide_unpack _). vm_compute. exact I.
  - apply (bool_decide_unpack _). vm_compute. exact I.
  - intros m Hm Hne. reflexivity.
  - exists s. split; [exact Hs|]. split; [exact Hr|exact Hp].
Defined.

(** ** Matrix reducer: the search for the pivot *)

Lemma list_index_Raise (k : list Q) (v : Q) (e : PyError) :
  list_index k v = Raise e ↔ e = ValueError ∧ Forall (λ x, ¬ (x == v)%Q) k.
Proof.
  revert e. induction k as [|x k IH]; intros e; cbn.
  - split; [by intros [= <-]|by intros [-> _]].
  - destruct (Qeq_bool x v) eqn:E.
    + split; [done|]. intros [_ Hall]. apply Forall_cons in Hall as [Hx _].
      by apply Qeq_bool_iff in E.
    + assert (¬ (x == v)%Q) as Hne.
      { intros Hx. apply Qeq_bool_iff in Hx. congruence. }
      destruct (list_index k v) as [i|e'] eqn:Hk; cbn.
      * split; [done|]. intros [-> Hall]. apply Forall_cons in Hall as [_ Hall].
        by pose proof (proj2 (IH ValueError) (conj eq_refl Hall)).
      * destruct (proj1 (IH e') eq_refl) as [-> Hall]. split.
        -- intros [= <-]. split; [done|]. by constructor.
        -- by intros [-> _].
Qed.

Lemma mapM_list_index_Raise (ks : list (list Q)) (v : Q) :
  Exists (Forall (λ x, ¬ (x == v)%Q)) ks →
  mapM (λ k, list_index k v) ks = Raise ValueError.
Proof.
  induction 1 as [k ks Hk|k ks _ IH]; cbn.
  - by rewrite (proj2 (list_index_Raise k v ValueError)).
  - destruct (list_index k v) as [i|e] eqn:Hi; cbn.
    + by rewrite IH.
    + by destruct (proj1 (list_index_Raise k v e) Hi) as [-> _].
Qed.

(** X16: the pivot positions are found by exact comparison with 1.  When
    the factorisation and the inversion return but some row of the inverse
    permutation factor holds no entry equal to 1, the reducer raises
    ValueError. *)
Theorem reducer_needs_exact_ones lu inv (mat : DataFrame) (P L U p_inv : ndarray) :
  lu (to_numpy (transpose mat)) = Ok (P, L, U) →
  inv P = Ok p_inv →
  Exists (Forall (λ x, ¬ (x == 1)%Q)) (rows p_inv) →
  decomposeMatrix lu inv mat = Raise ValueError.
Proof.
  intros HP Hp_inv Hrow. unfold decomposeMatrix.
  rewrite HP. cbn [mbind result_bind fst snd]. rewrite Hp_inv.
  cbn [mbind result_bind]. by rewrite mapM_list_index_Raise.
Qed.

Lemma reducer_needs_exact_ones_witness :
  decomposeMatrix scipy_lu inexact_inv example_matrix = Raise ValueError.
Proof.
  apply (reducer_needs_exact_ones scipy_lu inexact_inv example_matrix
           {| ncols := 2; rows := [[0; 1]; [1; 0]]%Q |} example_L
           {| ncols := 3; rows := [[-2; 0; 1]; [0; 1; -1 # 2]]%Q |}
           {| ncols := 2; rows := [[0; 999 # 1000]; [999 # 1000; 0]]%Q |}).
  - vm_compute. reflexivity.
  - vm_compute. reflexivity.
  - left. repeat constructor; vm_compute; discriminate.
Defined.
